(** * mobileconfig-validator: a shallow embedding of the validation engine

    Source: [src/mobileconfig_validator/types.py], [validator.py] and
    [loader.py].  Plist values are a tagged union; the Python runtime
    operations that are not code of this repository ([==], [in], [<], [>],
    [re.match], [uuid.UUID], [str.lower], f-string formatting of non-string
    values) are fields of a [runtime] record, so every theorem below holds for
    every behaviour of them.  An escaping Python exception is [None]. *)

From Stdlib Require Import String Ascii List ZArith Bool Floats Lia.
From Stdlib Require Import DecimalString DecimalNat.
Import ListNotations.
Open Scope string_scope.
Set Warnings "-register-all".

(** ** Plist values (what [plistlib.load] produces) *)

Inductive pyval : Type :=
| VStr (s : string)
| VInt (z : Z)
| VReal (f : float)
| VBool (b : bool)
| VData (bs : list Byte.byte)
| VDate (t : Z)
| VArr (xs : list pyval)
| VDict (kvs : list (string * pyval)).

(** Python truthiness. *)
Definition truthy (v : pyval) : bool :=
  match v with
  | VStr s => negb (String.eqb s "")
  | VInt z => negb (Z.eqb z 0)
  | VReal f => negb (PrimFloat.eqb f 0%float)
  | VBool b => b
  | VData bs => negb (List.length bs =? 0)%nat
  | VDate _ => true
  | VArr xs => negb (List.length xs =? 0)%nat
  | VDict kvs => negb (List.length kvs =? 0)%nat
  end.

(** [d.get(k)] on a plist dict (string keys); [None] is Python's [None]. *)
Fixpoint lookup (k : string) (kvs : list (string * pyval)) : option pyval :=
  match kvs with
  | [] => None
  | (k', v) :: t => if String.eqb k' k then Some v else lookup k t
  end.

Definition get_default (k : string) (kvs : list (string * pyval)) (d : pyval) : pyval :=
  match lookup k kvs with Some v => v | None => d end.

Definition truthy_opt (o : option pyval) : bool :=
  match o with Some v => truthy v | None => false end.

Definition mem_key (k : string) (kvs : list (string * pyval)) : bool :=
  existsb (fun '(k', _) => String.eqb k' k) kvs.

Definition hashable (v : pyval) : bool :=
  match v with VArr _ | VDict _ => false | _ => true end.

(** [type(value).__name__] *)
Definition type_name (v : pyval) : string :=
  match v with
  | VStr _ => "str" | VInt _ => "int" | VReal _ => "float" | VBool _ => "bool"
  | VData _ => "bytes" | VDate _ => "datetime" | VArr _ => "list" | VDict _ => "dict"
  end.

(** Iteration [for x in v]: a [TypeError] ([None]) on non-iterables. *)
Definition py_iter (v : pyval) : option (list pyval) :=
  match v with
  | VArr xs => Some xs
  | VStr s => Some (map (fun c => VStr (String c EmptyString)) (list_ascii_of_string s))
  | VDict kvs => Some (map (fun '(k, _) => VStr k) kvs)
  | VData bs => Some (map (fun b => VInt (Z.of_N (Byte.to_N b))) bs)
  | _ => None
  end.

(** [len(v)] *)
Definition py_len (v : pyval) : option nat :=
  match v with
  | VArr xs => Some (List.length xs)
  | VStr s => Some (String.length s)
  | VDict kvs => Some (List.length kvs)
  | VData bs => Some (List.length bs)
  | _ => None
  end.

(** f"{idx}" for a list index. *)
Definition nat_str (n : nat) : string := NilZero.string_of_uint (Nat.to_uint n).

(** ** The Python runtime operations the code relies on *)

Inductive re_outcome := ReMatch | ReNoMatch | ReError | ReOtherExc.

Record runtime := {
  py_eq : pyval -> pyval -> bool;                 (* a == b *)
  py_eq_str : forall s t, py_eq (VStr s) (VStr t) = String.eqb s t;
  (* a str is equal to nothing but a str *)
  py_eq_str_l : forall s v, py_eq (VStr s) v = true -> v = VStr s;
  py_eq_str_r : forall s v, py_eq v (VStr s) = true -> v = VStr s;
  (* bytes compare by content, and equal nothing but bytes *)
  py_eq_data : forall x y, py_eq (VData x) (VData y) =
                           (if list_eq_dec Byte.byte_eq_dec x y then true else false);
  py_eq_data_l : forall x v, py_eq (VData x) v = true -> v = VData x;
  py_in : pyval -> pyval -> option bool;          (* x in c ; None: exception *)
  py_lt : pyval -> pyval -> option bool;          (* a < b *)
  py_gt : pyval -> pyval -> option bool;          (* a > b *)
  py_format : pyval -> string;                    (* f"{v}" for a non-string v *)
  re_match : pyval -> string -> re_outcome;       (* re.match(pattern, s) *)
  uuid_ok : string -> bool;                       (* uuid.UUID(s) raises ValueError iff false *)
  py_lower : string -> string                     (* str.lower *)
}.

(** ** Issues and results (types.py) *)

Inductive severity := ERROR | WARNING | INFO.

Definition severity_eqb (a b : severity) : bool :=
  match a, b with
  | ERROR, ERROR | WARNING, WARNING | INFO, INFO => true
  | _, _ => false
  end.

Record issue := mkIssue {
  i_severity : severity;
  i_code : string;
  i_message : string;
  i_key_path : string;
  i_expected : option pyval;
  i_actual : option pyval
}.

Record validation_result := mkResult {
  r_file_path : string;
  r_payload_types : list pyval;
  r_issues : list issue;
  r_manifest_versions : list (pyval * pyval)
}.

Definition is_error (i : issue) : bool := severity_eqb (i_severity i) ERROR.

(** [ValidationResult.is_valid] *)
Definition is_valid (r : validation_result) : bool :=
  negb (existsb is_error (r_issues r)).

Definition error_count (r : validation_result) : nat :=
  List.length (filter is_error (r_issues r)).

Definition is_warning (i : issue) : bool := severity_eqb (i_severity i) WARNING.

Definition is_info (i : issue) : bool := severity_eqb (i_severity i) INFO.

(** [ValidationResult.warning_count] *)
Definition warning_count (r : validation_result) : nat :=
  List.length (filter is_warning (r_issues r)).

(** [ValidationResult.info_count] *)
Definition info_count (r : validation_result) : nat :=
  List.length (filter is_info (r_issues r)).

(** [BatchResult] *)
Record batch_result := mkBatch { b_results : list validation_result }.

Definition total_files (b : batch_result) : nat := List.length (b_results b).

(** [sum(1 for r in self.results if r.is_valid)] *)
Definition valid_files (b : batch_result) : nat := List.length (filter is_valid (b_results b)).

(** [self.total_files - self.valid_files], a Python int. *)
Definition invalid_files (b : batch_result) : Z :=
  (Z.of_nat (total_files b) - Z.of_nat (valid_files b))%Z.

Definition batch_error_count (b : batch_result) : nat := list_sum (map error_count (b_results b)).

Definition batch_warning_count (b : batch_result) : nat :=
  list_sum (map warning_count (b_results b)).

Definition batch_info_count (b : batch_result) : nat := list_sum (map info_count (b_results b)).

(** [all(r.is_valid for r in self.results)] *)
Definition batch_is_valid (b : batch_result) : bool := forallb is_valid (b_results b).

(** Option bind: an exception propagates. *)
Notation "'let*' x ':=' e1 'in' e2" :=
  (match e1 with Some x => e2 | None => None end)
  (at level 200, x name, e1 at level 100, e2 at level 200).

(** ** [SchemaValidator._type_matches] *)

(** Python classes that [isinstance] tests against. *)
Inductive pytype := T_str | T_int | T_float | T_bool | T_list | T_dict | T_bytes
                  | T_NoneType | T_datetime.

Definition isinstance (v : pyval) (t : pytype) : bool :=
  match t, v with
  | T_str, VStr _ => true
  | T_int, VInt _ => true
  | T_int, VBool _ => true          (* bool is a subclass of int *)
  | T_float, VReal _ => true
  | T_bool, VBool _ => true
  | T_list, VArr _ => true
  | T_dict, VDict _ => true
  | T_bytes, VData _ => true
  | T_datetime, VDate _ => true
  | _, _ => false
  end.

Definition isinstance_any (v : pyval) (ts : list pytype) : bool :=
  existsb (isinstance v) ts.

Definition TYPE_MAP : list (string * list pytype) :=
  [("string", [T_str]); ("integer", [T_int]); ("real", [T_int; T_float]);
   ("boolean", [T_bool]); ("array", [T_list]); ("dictionary", [T_dict]);
   ("data", [T_bytes]); ("date", [T_NoneType])].

Fixpoint str_assoc {A} (k : string) (l : list (string * A)) : option A :=
  match l with
  | [] => None
  | (k', x) :: t => if String.eqb k' k then Some x else str_assoc k t
  end.

(** [value in (0, 1)] for a value that is an [int] and not a [bool]. *)
Definition int_in_0_1 (v : pyval) : bool :=
  match v with VInt z => Z.eqb z 0 || Z.eqb z 1 | _ => false end.

Definition type_matches (value pfm_type : pyval) : option bool :=
  if negb (hashable pfm_type) then None          (* dict membership: TypeError *)
  else
  match pfm_type with
  | VStr t =>
      match str_assoc t TYPE_MAP with
      | None => Some true                         (* Unknown type, assume valid *)
      | Some expected =>
          if String.eqb t "date" then Some (isinstance value T_datetime)
          else if String.eqb t "real" then Some (isinstance_any value [T_int; T_float])
          else if String.eqb t "boolean" then
            Some (if isinstance value T_bool then true
                  else if isinstance value T_int && int_in_0_1 value then true
                  else false)
          else Some (isinstance_any value expected)
      end
  | _ => Some true                                (* not a key of TYPE_MAP *)
  end.

(** Schema key definitions are plist dicts; [_get_immediate_subkey_defs]
    returns a Python dict from [pfm_name] values to them. *)
Definition kdict := list (string * pyval).
Definition defs := list (pyval * kdict).

Definition STANDARD_PAYLOAD_KEYS : list string :=
  ["PayloadType"; "PayloadVersion"; "PayloadIdentifier"; "PayloadUUID";
   "PayloadDisplayName"; "PayloadDescription"; "PayloadOrganization";
   "PayloadContent"; "PayloadEnabled"; "PayloadScope"; "PayloadRemovalDisallowed"].

Definition is_standard_key (k : string) : bool := existsb (String.eqb k) STANDARD_PAYLOAD_KEYS.

(** [for x in l: issues.extend(f(x))]; an exception stops the loop. *)
Fixpoint extend_each {A} (f : A -> option (list issue)) (l : list A) : option (list issue) :=
  match l with
  | [] => Some []
  | x :: t => let* here := f x in
              let* rest := extend_each f t in
              Some (here ++ rest)%list
  end.

(** The same over [enumerate(l)], starting at index [idx]. *)
Fixpoint extend_each_idx {A} (f : nat -> A -> option (list issue)) (idx : nat) (l : list A)
  : option (list issue) :=
  match l with
  | [] => Some []
  | x :: t => let* here := f idx x in
              let* rest := extend_each_idx f (S idx) t in
              Some (here ++ rest)%list
  end.

Section Engine.
Variable rt : runtime.

(** f"{v}" *)
Definition fmt (v : pyval) : string :=
  match v with VStr s => s | _ => py_format rt v end.

(** [o == v] for [o] a [.get] result. *)
Definition opt_eq (o : option pyval) (v : pyval) : bool :=
  match o with Some x => py_eq rt x v | None => false end.

(** [d[name]] / [name in d] on a Python dict with arbitrary hashable keys. *)
Fixpoint defs_lookup (name : pyval) (d : defs) : option kdict :=
  match d with
  | [] => None
  | (k, kd) :: t => if py_eq rt k name then Some kd else defs_lookup name t
  end.

(** [d[k] = x]: an existing key keeps its position. *)
Fixpoint dict_set {A} (k : pyval) (x : A) (d : list (pyval * A)) : list (pyval * A) :=
  match d with
  | [] => [(k, x)]
  | (k', y) :: t => if py_eq rt k' k then (k', x) :: t else (k', y) :: dict_set k x t
  end.

(** [name in item] for a plist dict [item]. *)
Definition has_key (kvs : kdict) (name : pyval) : bool :=
  existsb (fun '(k, _) => py_eq rt (VStr k) name) kvs.

(** [SchemaValidator._get_immediate_subkey_defs] *)
Fixpoint immediate_defs_go (subkeys : list pyval) (acc : defs) : option defs :=
  match subkeys with
  | [] => Some acc
  | VDict kd :: t =>
      match lookup "pfm_name" kd with
      | Some name =>
          if truthy name then
            if hashable name then immediate_defs_go t (dict_set name kd acc) else None
          else immediate_defs_go t acc
      | None => immediate_defs_go t acc
      end
  | _ :: t => immediate_defs_go t acc
  end.

Definition get_immediate_subkey_defs (subkeys : pyval) : option defs :=
  let* l := py_iter subkeys in immediate_defs_go l [].

(** [SchemaValidator._unwrap_array_item_schema] *)
Definition unwrap_array_item_schema (item_defs : defs) (actual_items : list pyval)
  : option defs :=
  match item_defs with
  | [(wrapper_name, wrapper_def)] =>
      if negb (opt_eq (lookup "pfm_type" wrapper_def) (VStr "dictionary")) then Some item_defs
      else if existsb (fun item => match item with
                                   | VDict kvs => has_key kvs wrapper_name
                                   | _ => false end) actual_items
      then Some item_defs
      else
        let nested_subkeys := get_default "pfm_subkeys" wrapper_def (VArr []) in
        if truthy nested_subkeys then get_immediate_subkey_defs nested_subkeys
        else Some item_defs
  | _ => Some item_defs
  end.

(** [SchemaValidator._get_string_array_item_def]; the outer option is an
    exception ([item_subkeys[0]] on a one-key dict raises KeyError). *)
Definition get_string_array_item_def (item_subkeys : pyval) : option (option kdict) :=
  let* n := py_len item_subkeys in
  if negb (Nat.eqb n 1) then Some None
  else match item_subkeys with
       | VArr [VDict kd] =>
           Some (if opt_eq (lookup "pfm_type" kd) (VStr "string") then Some kd else None)
       | VDict _ => None
       | _ => Some None
       end.

(** ** [SchemaValidator._validate_key] *)

Definition issue_deprecated (kp : string) : issue :=
  mkIssue WARNING "W001" "Key is deprecated" kp None None.

Definition issue_type_mismatch (kp : string) (expected_type : option pyval) (value : pyval) : issue :=
  mkIssue ERROR "E003" "Type mismatch" kp expected_type (Some (VStr (type_name value))).

Definition issue_missing_key (kp : string) : issue :=
  mkIssue ERROR "E002" "Missing required key" kp None None.

Definition check_deprecated (kp : string) (key_def : kdict) : list issue :=
  if truthy_opt (lookup "pfm_deprecated" key_def) then [issue_deprecated kp] else [].

(** Type check: [Some true] when the value has the wrong shape. *)
Definition type_mismatch (value : pyval) (key_def : kdict) : option bool :=
  match lookup "pfm_type" key_def with
  | Some t => if truthy t then option_map negb (type_matches value t) else Some false
  | None => Some false
  end.

(** Range list (enum) *)
Definition check_range_list (kp : string) (value : pyval) (key_def : kdict) : option (list issue) :=
  match lookup "pfm_range_list" key_def with
  | Some range_list =>
      if truthy range_list then
        let* isin := py_in rt value range_list in
        if isin then Some []
        else Some [mkIssue ERROR "E004" "Value not in allowed list" kp
                     (Some range_list) (Some value)]
      else Some []
  | None => Some []
  end.

(** Range min/max *)
Definition check_min_max (kp : string) (value : pyval) (key_def : kdict) : option (list issue) :=
  if isinstance_any value [T_int; T_float] then
    let* lo := match lookup "pfm_range_min" key_def with
               | Some range_min =>
                   let* below := py_lt rt value range_min in
                   if below then Some [mkIssue ERROR "E005" "Value below minimum" kp
                                         (Some (VStr (">= " ++ fmt range_min))) (Some value)]
                   else Some []
               | None => Some []
               end in
    let* hi := match lookup "pfm_range_max" key_def with
               | Some range_max =>
                   let* above := py_gt rt value range_max in
                   if above then Some [mkIssue ERROR "E005" "Value above maximum" kp
                                         (Some (VStr ("<= " ++ fmt range_max))) (Some value)]
                   else Some []
               | None => Some []
               end in
    Some (lo ++ hi)%list
  else Some [].

(** Regex format; a broken pattern ([re.error]) is skipped. *)
Definition check_format (kp : string) (value : pyval) (key_def : kdict) : option (list issue) :=
  match lookup "pfm_format" key_def, value with
  | Some pfm_format, VStr s =>
      if truthy pfm_format then
        match re_match rt pfm_format s with
        | ReMatch => Some []
        | ReNoMatch => Some [mkIssue ERROR "E006" "Value doesn't match required format" kp
                               (Some pfm_format) (Some value)]
        | ReError => Some []
        | ReOtherExc => None
        end
      else Some []
  | _, _ => Some []
  end.

(** Required keys of one level: E002 at [prefix.name] for each definition
    with [pfm_require == "always"] whose name is absent from [kvs]. *)
Definition required_missing (prefix : string) (d : defs) (kvs : kdict) : list issue :=
  flat_map (fun '(name, kd) =>
              if opt_eq (lookup "pfm_require" kd) (VStr "always") && negb (has_key kvs name)
              then [issue_missing_key (prefix ++ "." ++ fmt name)] else []) d.

(** String items of an array checked against the string item definition. *)
Definition check_string_item (kp : string) (item : pyval) (sd : kdict) : option (list issue) :=
  match lookup "pfm_range_list" sd with
  | Some item_range_list =>
      if truthy item_range_list then
        let* isin := py_in rt item item_range_list in
        if isin then Some []
        else let* n := py_len item_range_list in
             Some [mkIssue ERROR "E004" "Value not in allowed list" kp
                     (Some (VStr ("One of " ++ nat_str n ++ " allowed values"))) (Some item)]
      else Some []
  | None => Some []
  end.

Fixpoint validate_key (key_path : string) (value : pyval) (key_def : kdict) {struct value}
  : option (list issue) :=
  let dep := check_deprecated key_path key_def in
  let expected_type := lookup "pfm_type" key_def in
  let* mismatch := type_mismatch value key_def in
  if mismatch then Some (dep ++ [issue_type_mismatch key_path expected_type value])%list
  else
  let* enum := check_range_list key_path value key_def in
  let* rng := check_min_max key_path value key_def in
  let* fmt_issues := check_format key_path value key_def in
  (* Recursively validate nested subkeys *)
  let* nested :=
    if opt_eq expected_type (VStr "dictionary") then
      match value with
      | VDict kvs =>
          let nested_subkeys := get_default "pfm_subkeys" key_def (VArr []) in
          if truthy nested_subkeys then
            let* nested_defs := get_immediate_subkey_defs nested_subkeys in
            let req := required_missing key_path nested_defs kvs in
            let* sub :=
              extend_each (fun '(nested_key, nested_value) =>
                             match defs_lookup (VStr nested_key) nested_defs with
                             | Some nd => validate_key (key_path ++ "." ++ nested_key) nested_value nd
                             | None => Some []
                             end) kvs in
            Some (req ++ sub)%list
          else Some []
      | _ => Some []
      end
    else Some [] in
  (* Validate array items *)
  let* arr :=
    if opt_eq expected_type (VStr "array") then
      match value with
      | VArr items =>
          let item_subkeys := get_default "pfm_subkeys" key_def (VArr []) in
          if truthy item_subkeys then
            let* item_defs0 := get_immediate_subkey_defs item_subkeys in
            let* item_defs := unwrap_array_item_schema item_defs0 items in
            let* string_item_def := get_string_array_item_def item_subkeys in
            extend_each_idx (fun idx item =>
              let ip := key_path ++ "[" ++ nat_str idx ++ "]" in
              match item with
              | VDict ikvs =>
                  (* Check required keys for each array item *)
                  let req := required_missing ip item_defs ikvs in
                  (* Validate each key in the array item *)
                  let* sub :=
                    extend_each (fun '(item_key, item_value) =>
                                   match defs_lookup (VStr item_key) item_defs with
                                   | Some ikd => validate_key (ip ++ "." ++ item_key) item_value ikd
                                   | None => Some []
                                   end) ikvs in
                  Some (req ++ sub)%list
              | VStr _ =>
                  match string_item_def with
                  | Some sd => if truthy (VDict sd) then check_string_item ip item sd else Some []
                  | None => Some []
                  end
              | _ => Some []
              end) 0 items
          else Some []
      | _ => Some []
      end
    else Some [] in
  Some (dep ++ enum ++ rng ++ fmt_issues ++ nested ++ arr)%list.


(** ** [ManifestLoader] (loader.py) *)

Record index_info := mkInfo {
  ii_path : pyval;
  ii_version : option pyval;
  ii_modified : option pyval;
  ii_category : string
}.

(** Outcome of opening and parsing a manifest file. *)
Inductive file_outcome :=
| FileMissing                 (* not manifest_path.exists() *)
| FileInvalid                 (* plistlib.InvalidFileException *)
| FileOtherExc                (* any other exception escapes *)
| FileParsed (v : pyval).

(** The loader after [load_index]: the domain index, the lazily filled
    manifest cache ([_manifests]) and the manifest files under [repo_dir]. *)
Record loader := mkLoader {
  ld_index : list (string * index_info);
  ld_manifests : list (pyval * pyval);
  ld_files : string -> file_outcome
}.

(** [self._index[domain] = {...}]: a later category overwrites in place. *)
Fixpoint index_set (k : string) (x : index_info) (l : list (string * index_info))
  : list (string * index_info) :=
  match l with
  | [] => [(k, x)]
  | (k', y) :: t => if String.eqb k' k then (k', x) :: t else (k', y) :: index_set k x t
  end.

(** The flattening loop of [ManifestLoader.load_index] over the parsed index. *)
Definition build_index (index_data : list (string * pyval)) : list (string * index_info) :=
  fold_left (fun idx '(category, domains) =>
    if String.eqb category "date" then idx
    else match domains with
         | VDict ds =>
             fold_left (fun idx' '(domain, info) =>
               match info with
               | VDict i =>
                   index_set domain (mkInfo (get_default "path" i (VStr ""))
                                            (lookup "version" i) (lookup "modified" i)
                                            category) idx'
               | _ => idx'
               end) ds idx
         | _ => idx
         end) index_data [].

Definition PLATFORM_SUFFIXES : list string :=
  ["-macOS"; "-iOS"; "-tvOS"; ".macOS"; ".iOS"; ".tvOS"].

(** The case-insensitive loop: [domain.lower() == payload_type.lower()].
    A [bytes] payload type has [.lower()] too, and a [str] never equals a
    [bytes], so the loop runs on without a match; on any other non-string
    [payload_type.lower()] raises once the index is non-empty. *)
Fixpoint case_insensitive_find (payload_type : pyval) (l : list (string * index_info))
  : option (option index_info) :=
  match l with
  | [] => Some None
  | (domain, info) :: t =>
      match payload_type with
      | VStr pt => if String.eqb (py_lower rt domain) (py_lower rt pt) then Some (Some info)
                   else case_insensitive_find payload_type t
      | VData _ => case_insensitive_find payload_type t
      | _ => None
      end
  end.

Fixpoint suffix_find (payload_type : pyval) (sfx : list string) (index : list (string * index_info))
  : option index_info :=
  match sfx with
  | [] => None
  | s :: t => match str_assoc (fmt payload_type ++ s) index with
              | Some info => Some info
              | None => suffix_find payload_type t index
              end
  end.

Fixpoint cache_lookup (k : pyval) (l : list (pyval * pyval)) : option pyval :=
  match l with
  | [] => None
  | (k', v) :: t => if py_eq rt k' k then Some v else cache_lookup k t
  end.

(** [self._index.get(payload_type)] *)
Definition index_get (payload_type : pyval) (ld : loader) : option index_info :=
  match payload_type with VStr s => str_assoc s (ld_index ld) | _ => None end.

(** The part of [ManifestLoader.get_manifest] after the cache check:
    exact, case-insensitive and suffix lookups, then the file. *)
Definition resolve_uncached (payload_type : pyval) (ld : loader) : option (loader * option pyval) :=
  let* info1 := match index_get payload_type ld with
                | Some i => Some (Some i)
                | None => case_insensitive_find payload_type (ld_index ld)
                end in
  let info2 := match info1 with
               | Some i => Some i
               | None => suffix_find payload_type PLATFORM_SUFFIXES (ld_index ld)
               end in
  match info2 with
  | None => Some (ld, None)
  | Some info =>
      match ii_path info with
      | VStr path =>
          match ld_files ld path with
          | FileMissing | FileInvalid => Some (ld, None)
          | FileOtherExc => None
          | FileParsed manifest =>
              Some (mkLoader (ld_index ld) (dict_set payload_type manifest (ld_manifests ld))
                             (ld_files ld), Some manifest)
          end
      | _ => None                                  (* Path / non-str: TypeError *)
      end
  end.

(** [ManifestLoader.get_manifest] *)
Definition get_manifest (payload_type : pyval) (ld : loader) : option (loader * option pyval) :=
  if negb (hashable payload_type) then None
  else match cache_lookup payload_type (ld_manifests ld) with
       | Some m => Some (ld, Some m)
       | None => resolve_uncached payload_type ld
       end.

(** [ManifestLoader.get_manifest_version] *)
Definition get_manifest_version (payload_type : pyval) (ld : loader) : option pyval :=
  match index_get payload_type ld with
  | Some info => ii_version info
  | None => None
  end.

(** [ManifestLoader.get_all_domains] *)
Definition get_all_domains (ld : loader) : list string := map fst (ld_index ld).

(** [ManifestLoader.has_manifest]. A non-string is never a key of the
    index. A [bytes] value has [.lower()] but never equals a [str], so
    [any] is [False]; on any other non-string [payload_type.lower()] raises
    as soon as [any] looks at a first domain, and an unhashable value
    already raises on [in]. *)
Definition has_manifest (payload_type : pyval) (ld : loader) : option bool :=
  match payload_type with
  | VStr pt =>
      if existsb (fun '(d, _) => String.eqb d pt) (ld_index ld) then Some true
      else Some (existsb (fun '(d, _) => String.eqb (py_lower rt d) (py_lower rt pt))
                         (ld_index ld))
  | VData _ => Some false
  | _ => if negb (hashable payload_type) then None
         else match ld_index ld with [] => Some false | _ => None end
  end.

(** [d.get(k, default)] handed to a continuation; used where the value read
    is recursed on, so that the recursion stays structural. *)
Fixpoint get_then {A} (k : string) (f : pyval -> A) (d : A) (kvs : list (string * pyval)) : A :=
  match kvs with
  | [] => d
  | (k', v) :: t => if String.eqb k' k then f v else get_then k f d t
  end.

(** [ManifestLoader._extract_subkeys]. [result] is a dict keyed by the
    [pfm_name] values; a later subkey with an equal name replaces the earlier
    definition in place. Iterating a string, dict or bytes value yields no
    dict, and iterating anything else raises. *)
Fixpoint extract_subkeys (subkeys : pyval) (result : list (pyval * pyval)) (prefix : string)
  {struct subkeys} : option (list (pyval * pyval)) :=
  match subkeys with
  | VArr items =>
      (fix go (items : list pyval) (result : list (pyval * pyval)) :=
         match items with
         | [] => Some result
         | VDict sk :: t =>
             match lookup "pfm_name" sk with
             | Some name =>
                 if truthy name then
                   let key_path := if truthy (VStr prefix) then prefix ++ "." ++ fmt name
                                   else fmt name in
                   if hashable name then
                     let result := dict_set name (VDict sk) result in
                     let* result :=
                       get_then "pfm_subkeys"
                         (fun nested => if truthy nested then extract_subkeys nested result key_path
                                        else Some result) (Some result) sk in
                     let* result :=
                       get_then "pfm_item_subkeys"
                         (fun item_subkeys =>
                            if truthy item_subkeys
                            then extract_subkeys item_subkeys result (key_path ++ "[]")
                            else Some result) (Some result) sk in
                     go t result
                   else None                     (* result[name]: unhashable *)
                 else go t result
             | None => go t result
             end
         | _ :: t => go t result
         end) items result
  | v => let* _ := py_iter v in Some result
  end.

(** [ManifestLoader.get_subkey_definitions] *)
Definition get_subkey_definitions (manifest : kdict) : option (list (pyval * pyval)) :=
  extract_subkeys (get_default "pfm_subkeys" manifest (VArr [])) [] "".

(** ** [SchemaValidator] structure checks *)

Definition REQUIRED_KEYS : list string :=
  ["PayloadType"; "PayloadVersion"; "PayloadIdentifier"; "PayloadUUID"].

(** [_validate_uuid]: [uuid.UUID(value)] raises ValueError (caught) on a
    malformed string and AttributeError/TypeError (escaping) on a non-string. *)
Definition validate_uuid (value : pyval) (kp : string) : option (list issue) :=
  match value with
  | VStr s => Some (if uuid_ok rt s then []
                    else [mkIssue ERROR "E007" "Invalid UUID format" kp None (Some value)])
  | _ => None
  end.

Definition missing_required (prefix_of : string -> string) (d : kdict) : list issue :=
  flat_map (fun key => if mem_key key d then []
                       else [mkIssue ERROR "E002" ("Missing required key: " ++ key)
                                     (prefix_of key) None None]) REQUIRED_KEYS.

Definition check_version (kp : string) (d : kdict) : list issue :=
  match lookup "PayloadVersion" d with
  | Some v => if negb (py_eq rt v (VInt 1))
              then [mkIssue ERROR "E008" "PayloadVersion should be 1" kp (Some (VInt 1)) (Some v)]
              else []
  | None => []
  end.

Definition check_uuid (kp : string) (d : kdict) : option (list issue) :=
  match lookup "PayloadUUID" d with
  | Some u => if truthy u then validate_uuid u kp else Some []
  | None => Some []
  end.

(** [_validate_profile_structure] *)
Definition validate_profile_structure (profile : kdict) : option (list issue) :=
  let missing := missing_required (fun key => key) profile in
  let ty := if negb (opt_eq (lookup "PayloadType" profile) (VStr "Configuration"))
            then [mkIssue ERROR "E004" "Outer PayloadType must be 'Configuration'" "PayloadType"
                          (Some (VStr "Configuration")) (lookup "PayloadType" profile)]
            else [] in
  let ver := check_version "PayloadVersion" profile in
  let* uu := check_uuid "PayloadUUID" profile in
  let org := if mem_key "PayloadOrganization" profile then []
             else [mkIssue INFO "I002" "Consider adding PayloadOrganization"
                           "PayloadOrganization" None None] in
  Some (missing ++ ty ++ ver ++ uu ++ org)%list.

(** [_validate_payload_structure] *)
Definition validate_payload_structure (payload : kdict) (prefix : string) : option (list issue) :=
  let missing := missing_required (fun key => prefix ++ "." ++ key) payload in
  let ver := check_version (prefix ++ ".PayloadVersion") payload in
  let* uu := check_uuid (prefix ++ ".PayloadUUID") payload in
  Some (missing ++ ver ++ uu)%list.

(** Required-key loop of [_validate_payload_against_manifest]. *)
Fixpoint manifest_required (prefix : string) (payload : kdict) (d : defs) : option (list issue) :=
  match d with
  | [] => Some []
  | (key_name, key_def) :: t =>
      let* here :=
        if opt_eq (lookup "pfm_require" key_def) (VStr "always") && negb (has_key payload key_name)
        then
          if existsb (fun k => py_eq rt (VStr k) key_name) STANDARD_PAYLOAD_KEYS then Some []
          else match key_name with
               | VStr kn => if String.prefix "PFC_" kn then Some []
                            else Some [issue_missing_key (prefix ++ "." ++ kn)]
               | _ => None                      (* key_name.startswith: AttributeError *)
               end
        else Some [] in
      let* rest := manifest_required prefix payload t in
      Some (here ++ rest)%list
  end.

(** Per-key loop of [_validate_payload_against_manifest]. *)
Fixpoint manifest_keys (prefix : string) (d : defs) (kvs : kdict) : option (list issue) :=
  match kvs with
  | [] => Some []
  | (key, value) :: t =>
      let* here :=
        if is_standard_key key then Some []
        else let key_path := prefix ++ "." ++ key in
             match defs_lookup (VStr key) d with
             | Some key_def => validate_key key_path value key_def
             | None => Some [mkIssue WARNING "W002" "Unknown key not in manifest schema" key_path
                                     None (Some (VStr key))]
             end in
      let* rest := manifest_keys prefix d t in
      Some (here ++ rest)%list
  end.

(** [_validate_payload_against_manifest] *)
Definition validate_payload_against_manifest (payload manifest : kdict) (prefix : string)
  : option (list issue) :=
  let platforms := get_default "pfm_platforms" manifest (VArr []) in
  let* plat :=
    if truthy platforms then
      let* has := py_in rt (VStr "macOS") platforms in
      if has then Some []
      else Some [mkIssue WARNING "W003" "Manifest indicates this payload is not for macOS" prefix
                         (Some (VStr "macOS")) (Some platforms)]
    else Some [] in
  let subkeys := get_default "pfm_subkeys" manifest (VArr []) in
  let* immediate_defs := get_immediate_subkey_defs subkeys in
  let* req := manifest_required prefix payload immediate_defs in
  let* keys := manifest_keys prefix immediate_defs payload in
  Some (plat ++ req ++ keys)%list.

(** ** [SchemaValidator.validate] *)

(** State threaded through the payload loop: the loader (its manifest
    cache fills lazily), the result being built, [all_uuids] and
    [all_identifiers]. *)
Record vstate := mkState {
  vs_loader : loader;
  vs_result : validation_result;
  vs_uuids : list pyval;
  vs_identifiers : list pyval
}.

Definition add_issues (r : validation_result) (l : list issue) : validation_result :=
  mkResult (r_file_path r) (r_payload_types r) (r_issues r ++ l)%list (r_manifest_versions r).

Definition set_mem (x : pyval) (s : list pyval) : bool := existsb (fun y => py_eq rt y x) s.

(** [s.add(x)] *)
Definition set_add (x : pyval) (s : list pyval) : list pyval :=
  if set_mem x s then s else (s ++ [x])%list.

Definition payload_prefix (idx : nat) : string := "PayloadContent[" ++ nat_str idx ++ "]".

Definition issue_unknown_type (prefix : string) (payload_type : pyval) : issue :=
  mkIssue WARNING "E001" "Unknown PayloadType - no manifest found" (prefix ++ ".PayloadType")
          None (Some payload_type).

Definition issue_duplicate_uuid (prefix : string) (u : pyval) : issue :=
  mkIssue ERROR "E009" "Duplicate PayloadUUID" (prefix ++ ".PayloadUUID") None (Some u).

Definition issue_not_dict (prefix : string) (payload : pyval) : issue :=
  mkIssue ERROR "E003" "Payload must be a dictionary" prefix
          (Some (VStr "dictionary")) (Some (VStr (type_name payload))).

(** One iteration of the payload loop. *)
Definition process_payload (idx : nat) (payload : pyval) (st : vstate) : option vstate :=
  let r := vs_result st in
  let prefix := payload_prefix idx in
  match payload with
  | VDict p =>
      let payload_type := get_default "PayloadType" p (VStr "") in
      let r := mkResult (r_file_path r) (r_payload_types r ++ [payload_type])%list
                        (r_issues r) (r_manifest_versions r) in
      (* Check for duplicate UUIDs *)
      let* dup :=
        match lookup "PayloadUUID" p with
        | Some u =>
            if truthy u then
              if hashable u then
                Some ((if set_mem u (vs_uuids st) then [issue_duplicate_uuid prefix u] else []),
                      set_add u (vs_uuids st))
              else None
            else Some ([], vs_uuids st)
        | None => Some ([], vs_uuids st)
        end in
      let '(dup_issues, uuids) := dup in
      let r := add_issues r dup_issues in
      (* Track identifiers *)
      let idents := (vs_identifiers st ++ [get_default "PayloadIdentifier" p (VStr "")])%list in
      (* Validate payload structure *)
      let* ps := validate_payload_structure p prefix in
      let r := add_issues r ps in
      (* Get manifest for this PayloadType *)
      let* gm := get_manifest payload_type (vs_loader st) in
      let '(ld, manifest) := gm in
      if truthy_opt manifest then
        let version := get_manifest_version payload_type ld in
        let r := match version with
                 | Some v => if truthy v then
                               mkResult (r_file_path r) (r_payload_types r) (r_issues r)
                                        (dict_set payload_type v (r_manifest_versions r))
                             else r
                 | None => r
                 end in
        let* mi := match manifest with
                   | Some (VDict md) => validate_payload_against_manifest p md prefix
                   | _ => None                  (* manifest.get: AttributeError *)
                   end in
        Some (mkState ld (add_issues r mi) uuids idents)
      else
        Some (mkState ld (add_issues r [issue_unknown_type prefix payload_type]) uuids idents)
  | _ =>
      Some (mkState (vs_loader st) (add_issues r [issue_not_dict prefix payload])
                    (vs_uuids st) (vs_identifiers st))
  end.

Fixpoint process_payloads (idx : nat) (payloads : list pyval) (st : vstate) : option vstate :=
  match payloads with
  | [] => Some st
  | p :: t => let* st' := process_payload idx p st in process_payloads (S idx) t st'
  end.

(** [identifier_counts[ident] = identifier_counts.get(ident, 0) + 1] *)
Fixpoint count_add (ident : pyval) (counts : list (pyval * nat)) : list (pyval * nat) :=
  match counts with
  | [] => [(ident, 1)]
  | (k, c) :: t => if py_eq rt k ident then (k, S c) :: t else (k, c) :: count_add ident t
  end.

Fixpoint tally (idents : list pyval) (counts : list (pyval * nat)) : option (list (pyval * nat)) :=
  match idents with
  | [] => Some counts
  | i :: t => if truthy i then
                if hashable i then tally t (count_add i counts) else None
              else tally t counts
  end.

Definition identifier_issues (counts : list (pyval * nat)) : list issue :=
  flat_map (fun '(ident, count) =>
              if Nat.ltb 1 count
              then [mkIssue INFO "I003" ("PayloadIdentifier appears " ++ nat_str count ++ " times")
                            "PayloadIdentifier" None (Some ident)]
              else []) counts.

(** What the external plist parser hands to [validate]. *)
Inductive parsed :=
| Parsed (v : pyval)
| InvalidPlist (msg : string)
| FileNotFound.

(** [all_uuids = {uuid} if uuid else set()] for the document-level UUID. *)
Definition initial_uuids (profile : kdict) : option (list pyval) :=
  match lookup "PayloadUUID" profile with
  | Some u => if truthy u then (if hashable u then Some [u] else None) else Some []
  | None => Some []
  end.

Definition issue_content_not_array (pc : pyval) : issue :=
  mkIssue ERROR "E003" "PayloadContent must be an array" "PayloadContent"
          (Some (VStr "array")) (Some (VStr (type_name pc))).

Definition validate (ld : loader) (path : string) (input : parsed)
  : option (loader * validation_result) :=
  match input with
  | InvalidPlist e =>
      Some (ld, mkResult path [] [mkIssue ERROR "E000" ("Invalid plist file: " ++ e) "(root)"
                                          None None] [])
  | FileNotFound =>
      Some (ld, mkResult path [] [mkIssue ERROR "E000" "File not found" "(root)" None None] [])
  | Parsed (VDict profile) =>
      let* structure := validate_profile_structure profile in
      let r := mkResult path [] structure [] in
      let* uuids := initial_uuids profile in
      let idents := [get_default "PayloadIdentifier" profile (VStr "")] in
      match get_default "PayloadContent" profile (VArr []) with
      | VArr payload_content =>
          let* st := process_payloads 0 payload_content (mkState ld r uuids idents) in
          let* counts := tally (vs_identifiers st) [] in
          Some (vs_loader st, add_issues (vs_result st) (identifier_issues counts))
      | pc => Some (ld, add_issues r [issue_content_not_array pc])
      end
  | Parsed _ => None                              (* profile.get: AttributeError *)
  end.

(** ** The API (api.py)

    A file is given by its path and what parsing it yields; a fresh
    [ManifestLoader] has the index and manifest files of the cache and an
    empty manifest cache. *)

(** [api.validate_file]: a fresh loader for the one file. *)
Definition validate_file (index : list (string * index_info)) (files : string -> file_outcome)
           (path : string) (input : parsed) : option validation_result :=
  let* res := validate (mkLoader index [] files) path input in Some (snd res).

(** The loop of [api.validate_files]: one loader shared by all files. *)
Fixpoint validate_all (ld : loader) (inputs : list (string * parsed))
  : option (loader * list validation_result) :=
  match inputs with
  | [] => Some (ld, [])
  | (path, input) :: t =>
      let* res := validate ld path input in
      let* rest := validate_all (fst res) t in
      Some (fst rest, snd res :: snd rest)
  end.

(** [api.validate_files] *)
Definition validate_files (index : list (string * index_info)) (files : string -> file_outcome)
           (inputs : list (string * parsed)) : option batch_result :=
  let* res := validate_all (mkLoader index [] files) inputs in Some (mkBatch (snd res)).
End Engine.

(** ** [JSONFormatter._serialize_value] (formatter.py) *)
Fixpoint serialize_value (v : pyval) : pyval :=
  match v with
  | VData bs => VStr ("<" ++ nat_str (List.length bs) ++ " bytes>")
  | VArr xs => VArr (map serialize_value xs)
  | VDict kvs => VDict (map (fun '(k, x) => (k, serialize_value x)) kvs)
  | _ => v
  end.

(** ** A concrete runtime, used to run the examples

    It is exact on strings, integers, booleans and dates, which is all the
    examples use; lists and dicts compare unequal, a pattern is matched as
    a literal prefix and [uuid_ok] accepts the canonical 8-4-4-4-12 form. *)
Module CPython.

Definition int_of (v : pyval) : option Z :=
  match v with VInt z => Some z | VBool b => Some (if b then 1%Z else 0%Z) | _ => None end.

Definition peq (a b : pyval) : bool :=
  match a, b with
  | VStr s, VStr t => String.eqb s t
  | VReal f, VReal g => PrimFloat.eqb f g
  | VData x, VData y => if list_eq_dec Byte.byte_eq_dec x y then true else false
  | VDate x, VDate y => Z.eqb x y
  | _, _ => match int_of a, int_of b with Some x, Some y => Z.eqb x y | _, _ => false end
  end.

Definition contains (x c : pyval) : option bool :=
  match c with
  | VArr l => Some (existsb (peq x) l)
  | VStr s => match x with
              | VStr t => Some (match String.index 0 t s with Some _ => true | None => false end)
              | _ => None
              end
  | VDict kvs => if hashable x then Some (existsb (fun '(k, _) => peq (VStr k) x) kvs) else None
  | _ => None
  end.

Definition plt (a b : pyval) : option bool :=
  match int_of a, int_of b with
  | Some x, Some y => Some (Z.ltb x y)
  | _, _ => match a, b with VReal f, VReal g => Some (PrimFloat.ltb f g) | _, _ => None end
  end.

Definition format_val (v : pyval) : string :=
  match v with
  | VInt z => NilEmpty.string_of_int (Z.to_int z)
  | VBool b => if b then "True" else "False"
  | _ => ""
  end.

Definition is_hex (c : ascii) : bool :=
  let n := nat_of_ascii c in
  (((48 <=? n) && (n <=? 57)) || ((97 <=? n) && (n <=? 102)) || ((65 <=? n) && (n <=? 70)))%nat.

Definition uuid_canonical (s : string) : bool :=
  let cs := list_ascii_of_string s in
  (List.length cs =? 36)%nat &&
  forallb (fun '(i, c) => if existsb (Nat.eqb i) [8; 13; 18; 23]%nat then Ascii.eqb c "-"
                          else is_hex c)
          (combine (seq 0 (List.length cs)) cs).

Definition lower_ascii (c : ascii) : ascii :=
  let n := nat_of_ascii c in
  if ((65 <=? n) && (n <=? 90))%nat then ascii_of_nat (n + 32)%nat else c.

Definition lower_str (s : string) : string := string_of_list_ascii (map lower_ascii (list_ascii_of_string s)).

Lemma eq_str s t : peq (VStr s) (VStr t) = String.eqb s t.
Proof. reflexivity. Qed.

Lemma eq_str_l s v : peq (VStr s) v = true -> v = VStr s.
Proof.
  destruct v; simpl; try discriminate.
  intros H. apply String.eqb_eq in H. now subst.
Qed.

Lemma eq_str_r s v : peq v (VStr s) = true -> v = VStr s.
Proof.
  destruct v; simpl; try discriminate.
  intros H. apply String.eqb_eq in H. now subst.
Qed.

Lemma eq_data x y : peq (VData x) (VData y) =
                    (if list_eq_dec Byte.byte_eq_dec x y then true else false).
Proof. reflexivity. Qed.

Lemma eq_data_l x v : peq (VData x) v = true -> v = VData x.
Proof.
  destruct v as [| | | |y| | |]; simpl; try discriminate.
  destruct (list_eq_dec Byte.byte_eq_dec x y); [now subst | discriminate].
Qed.

Definition rt : runtime := {|
  py_eq := peq;
  py_eq_data := eq_data;
  py_eq_data_l := eq_data_l;
  py_eq_str := eq_str;
  py_eq_str_l := eq_str_l;
  py_eq_str_r := eq_str_r;
  py_in := contains;
  py_lt := plt;
  py_gt := fun a b => plt b a;
  py_format := format_val;
  re_match := fun pat s => match pat with
                           | VStr p => if String.prefix p s then ReMatch else ReNoMatch
                           | _ => ReOtherExc
                           end;
  uuid_ok := uuid_canonical;
  py_lower := lower_str
|}.

End CPython.

(** * Properties *)

(** ** Small facts about the helpers *)

Lemma is_error_true (i : issue) : is_error i = true <-> i_severity i = ERROR.
Proof. unfold is_error; destruct (i_severity i); simpl; split; congruence. Qed.

Lemma type_matches_false_truthy (v t : pyval) :
  type_matches v t = Some false -> truthy t = true.
Proof.
  destruct t as [s| | | | | | |]; simpl; intros H; try discriminate.
  destruct s; [discriminate | reflexivity].
Qed.

Lemma type_mismatch_true (v : pyval) (kd : kdict) (t : pyval) :
  lookup "pfm_type" kd = Some t -> type_matches v t = Some false ->
  type_mismatch v kd = Some true.
Proof.
  intros Hl Ht. unfold type_mismatch. rewrite Hl, (type_matches_false_truthy v t Ht), Ht.
  reflexivity.
Qed.

Lemma opt_eq_str (rt : runtime) (s t : string) :
  opt_eq rt (Some (VStr s)) (VStr t) = String.eqb s t.
Proof. unfold opt_eq. apply py_eq_str. Qed.

Definition codes_in (cs : list string) (l : list issue) : Prop :=
  Forall (fun i => In (i_code i) cs) l.

Lemma check_deprecated_codes (kp : string) (kd : kdict) :
  codes_in ["W001"] (check_deprecated kp kd).
Proof.
  unfold check_deprecated, codes_in. destruct (truthy_opt _); repeat constructor.
Qed.

Lemma check_range_list_codes (rt : runtime) kp v kd l :
  check_range_list rt kp v kd = Some l -> codes_in ["E004"] l.
Proof.
  unfold check_range_list, codes_in.
  destruct (lookup "pfm_range_list" kd); [|intros [= <-]; constructor].
  destruct (truthy p); [|intros [= <-]; constructor].
  destruct (py_in rt v p) as [[|]|]; intros H; inversion H; subst; repeat constructor.
Qed.

Lemma check_min_max_codes (rt : runtime) kp v kd l :
  check_min_max rt kp v kd = Some l -> codes_in ["E005"] l.
Proof.
  unfold check_min_max, codes_in.
  destruct (isinstance_any v _); [|intros [= <-]; constructor].
  destruct (lookup "pfm_range_min" kd) as [m|];
    [destruct (py_lt rt v m) as [[|]|]|]; try discriminate;
  (destruct (lookup "pfm_range_max" kd) as [m'|];
    [destruct (py_gt rt v m') as [[|]|]|]); try discriminate;
  intros H; inversion H; subst; repeat constructor.
Qed.

Lemma check_format_codes (rt : runtime) kp v kd l :
  check_format rt kp v kd = Some l -> codes_in ["E006"] l.
Proof.
  unfold check_format, codes_in.
  destruct (lookup "pfm_format" kd) as [f|]; [|intros [= <-]; constructor].
  destruct v; try (intros [= <-]; constructor).
  destruct (truthy f); [|intros [= <-]; constructor].
  destruct (re_match rt f s); intros H; inversion H; subst; repeat constructor.
Qed.

Lemma codes_in_app cs l1 l2 : codes_in cs l1 -> codes_in cs l2 -> codes_in cs (l1 ++ l2)%list.
Proof. unfold codes_in. intros; apply Forall_app; auto. Qed.

Lemma codes_in_weaken cs cs' l : incl cs cs' -> codes_in cs l -> codes_in cs' l.
Proof.
  unfold codes_in. intros Hi H. eapply Forall_impl; [|exact H]. intros i Hc; apply Hi, Hc.
Qed.

(** ** C1: validity is the absence of errors *)

(** C1: [is_valid r] holds exactly when no issue of [r] has severity
    ERROR; inserting an issue anywhere in the list changes [is_valid] only
    when that issue is an error, so warnings and info never affect it. *)
Theorem is_valid_iff_no_error (r : validation_result) :
  (is_valid r = true <-> Forall (fun i => i_severity i <> ERROR) (r_issues r)) /\
  (forall (l1 l2 : list issue) (i : issue),
     is_valid (mkResult (r_file_path r) (r_payload_types r) (l1 ++ i :: l2)%list
                        (r_manifest_versions r))
     = negb (is_error i) &&
       is_valid (mkResult (r_file_path r) (r_payload_types r) (l1 ++ l2)%list
                          (r_manifest_versions r))).
Proof.
  split.
  - unfold is_valid. rewrite Bool.negb_true_iff, Forall_forall. split.
    + intros H i Hi Hs. apply (proj2 (is_error_true i)) in Hs.
      assert (existsb is_error (r_issues r) = true) by (apply existsb_exists; eauto).
      congruence.
    + intros H. destruct (existsb is_error (r_issues r)) eqn:E; [|reflexivity].
      apply existsb_exists in E as [i [Hi Hs]]. exfalso.
      apply (H i Hi), is_error_true, Hs.
  - intros l1 l2 i. unfold is_valid. simpl. rewrite !existsb_app. simpl.
    destruct (is_error i); destruct (existsb is_error l1); destruct (existsb is_error l2);
      reflexivity.
Qed.

(** ** C2: the type check *)

(** Companion facts (the parts of the type check that behave as the spec
    says): "boolean" takes [true], [false], [0], [1] and refuses [2];
    "real" takes integers and floats; "date" takes only timestamps. *)
Lemma type_matches_boolean_real_date :
  type_matches (VBool true) (VStr "boolean") = Some true /\
  type_matches (VBool false) (VStr "boolean") = Some true /\
  type_matches (VInt 0) (VStr "boolean") = Some true /\
  type_matches (VInt 1) (VStr "boolean") = Some true /\
  type_matches (VInt 2) (VStr "boolean") = Some false /\
  (forall z, type_matches (VInt z) (VStr "boolean") = Some (Z.eqb z 0 || Z.eqb z 1)) /\
  (forall v, type_matches v (VStr "real") = Some (match v with VInt _ | VReal _ | VBool _ => true
                                                           | _ => false end)) /\
  (forall v, type_matches v (VStr "date") = Some (match v with VDate _ => true | _ => false end)).
Proof.
  repeat split; try reflexivity.
  all: try (intros z; unfold type_matches; simpl; destruct (Z.eqb z 0 || Z.eqb z 1); reflexivity).
  all: intros []; reflexivity.
Qed.

(** C2 (code_bug): with declared type "integer" the check is
    [isinstance(value, int)], and a plist boolean is a Python [bool], a
    subclass of [int]: [true] passes the "integer" (and "real") check, and
    [_validate_key] reports nothing for it. *)
Theorem type_matches_integer_accepts_bool :
  type_matches (VBool true) (VStr "integer") = Some true /\
  type_matches (VBool false) (VStr "integer") = Some true /\
  type_matches (VBool true) (VStr "real") = Some true /\
  (forall rt : runtime,
     validate_key rt "Key" (VBool true) [("pfm_type", VStr "integer")] = Some []).
Proof.
  repeat split; try reflexivity.
  intros rt. simpl. unfold opt_eq. rewrite !py_eq_str. reflexivity.
Qed.

(** ** C3: a type mismatch stops the checks of the key *)

(** C3: when the declared type of a key does not match its value,
    [_validate_key] returns the deprecation warning (if the key is
    deprecated) followed by the single E003 type-mismatch error, and nothing
    else: no enum, range, format, nested or array-item check runs. *)
Theorem validate_key_type_mismatch_short_circuit (rt : runtime) (kp : string) (v : pyval)
  (kd : kdict) (t : pyval) :
  lookup "pfm_type" kd = Some t ->
  type_matches v t = Some false ->
  validate_key rt kp v kd = Some (check_deprecated kp kd ++ [issue_type_mismatch kp (Some t) v])%list.
Proof.
  intros Hl Ht.
  pose proof (type_mismatch_true v kd t Hl Ht) as Hm.
  destruct v; cbn [validate_key]; rewrite Hm, Hl; reflexivity.
Qed.

(** ** C10: an unknown declared type name passes the type check *)

Lemma str_assoc_none {A} (s : string) (l : list (string * A)) :
  ~ In s (map fst l) -> str_assoc s l = None.
Proof.
  induction l as [|[k x] t IH]; cbn [str_assoc map fst In]; intros H; [reflexivity|].
  destruct (String.eqb k s) eqn:E.
  - apply String.eqb_eq in E. subst. tauto.
  - apply IH. tauto.
Qed.

Lemma not_type_name_assoc (s : string) :
  ~ In s (map fst TYPE_MAP) ->
  str_assoc s TYPE_MAP = None /\ String.eqb s "dictionary" = false /\ String.eqb s "array" = false.
Proof.
  intros Hs. split; [apply str_assoc_none, Hs|].
  split; apply String.eqb_neq; intros ->; apply Hs; simpl; tauto.
Qed.

(** C10: for a key whose declared type is a string outside the eight names
    of [TYPE_MAP], [_type_matches] accepts every value; [_validate_key]
    then runs exactly the deprecation, enum, range and format checks, in that
    order, and never reports an E003 type mismatch for the key. *)
Theorem validate_key_unknown_type (rt : runtime) (kp : string) (v : pyval) (kd : kdict)
  (s : string) :
  lookup "pfm_type" kd = Some (VStr s) ->
  ~ In s (map fst TYPE_MAP) ->
  type_matches v (VStr s) = Some true /\
  validate_key rt kp v kd =
    (let* enum := check_range_list rt kp v kd in
     let* rng := check_min_max rt kp v kd in
     let* fmt_issues := check_format rt kp v kd in
     Some (check_deprecated kp kd ++ enum ++ rng ++ fmt_issues)%list) /\
  (forall l, validate_key rt kp v kd = Some l -> forall i, In i l -> i_code i <> "E003").
Proof.
  intros Hl Hs.
  destruct (not_type_name_assoc s Hs) as [Ha [Ed Ea]].
  assert (Ht : type_matches v (VStr s) = Some true)
    by (unfold type_matches; cbn [hashable negb]; rewrite Ha; reflexivity).
  assert (Hm : type_mismatch v kd = Some false)
    by (unfold type_mismatch; rewrite Hl; destruct (truthy (VStr s)); [rewrite Ht|]; reflexivity).
  assert (Hk : validate_key rt kp v kd =
    (let* enum := check_range_list rt kp v kd in
     let* rng := check_min_max rt kp v kd in
     let* fmt_issues := check_format rt kp v kd in
     Some (check_deprecated kp kd ++ enum ++ rng ++ fmt_issues)%list)).
  { destruct v; cbn [validate_key]; rewrite Hm, Hl, !opt_eq_str, Ed, Ea;
    destruct (check_range_list _ _ _ _); try reflexivity;
    destruct (check_min_max _ _ _ _); try reflexivity;
    destruct (check_format _ _ _ _); try reflexivity;
    simpl; rewrite !app_nil_r; reflexivity. }
  split; [exact Ht | split; [exact Hk |]].
  intros l Hv i Hi. rewrite Hk in Hv.
  destruct (check_range_list rt kp v kd) as [e|] eqn:He; [|discriminate].
  destruct (check_min_max rt kp v kd) as [r|] eqn:Hr; [|discriminate].
  destruct (check_format rt kp v kd) as [f|] eqn:Hf; [|discriminate].
  injection Hv as <-.
  assert (Hc : codes_in ["W001"; "E004"; "E005"; "E006"]
                 (check_deprecated kp kd ++ e ++ r ++ f)%list).
  { repeat apply codes_in_app;
      [ eapply codes_in_weaken; [|apply check_deprecated_codes]
      | eapply codes_in_weaken; [|eapply check_range_list_codes; eauto]
      | eapply codes_in_weaken; [|eapply check_min_max_codes; eauto]
      | eapply codes_in_weaken; [|eapply check_format_codes; eauto] ];
      intros c Hc'; simpl in *; tauto. }
  unfold codes_in in Hc. rewrite Forall_forall in Hc.
  specialize (Hc i Hi). simpl in Hc. intros E. rewrite E in Hc.
  repeat (destruct Hc as [Hc|Hc]; [discriminate|]). exact Hc.
Qed.

(** Witness for C10: a key declared "url" (not a known type name) holding
    an integer goes through the range check. *)
Lemma validate_key_unknown_type_witness :
  lookup "pfm_type" [("pfm_type", VStr "url"); ("pfm_range_max", VInt 5)] = Some (VStr "url") /\
  ~ In "url" (map fst TYPE_MAP) /\
  validate_key CPython.rt "Key" (VInt 7) [("pfm_type", VStr "url"); ("pfm_range_max", VInt 5)]
  = (let* enum := check_range_list CPython.rt "Key" (VInt 7)
                                   [("pfm_type", VStr "url"); ("pfm_range_max", VInt 5)] in
     let* rng := check_min_max CPython.rt "Key" (VInt 7)
                               [("pfm_type", VStr "url"); ("pfm_range_max", VInt 5)] in
     let* fmt_issues := check_format CPython.rt "Key" (VInt 7)
                                     [("pfm_type", VStr "url"); ("pfm_range_max", VInt 5)] in
     Some (check_deprecated "Key" [("pfm_type", VStr "url"); ("pfm_range_max", VInt 5)]
             ++ enum ++ rng ++ fmt_issues)%list).
Proof.
  assert (Hn : ~ In "url" (map fst TYPE_MAP)) by (simpl; intuition discriminate).
  split; [reflexivity | split; [exact Hn |]].
  exact (proj1 (proj2 (validate_key_unknown_type CPython.rt "Key" (VInt 7)
           [("pfm_type", VStr "url"); ("pfm_range_max", VInt 5)] "url" eq_refl Hn))).
Defined.

(** Witness for C3: a string value under a deprecated "integer" key. *)
Lemma validate_key_type_mismatch_short_circuit_witness :
  validate_key CPython.rt "Key" (VStr "x")
    [("pfm_type", VStr "integer"); ("pfm_deprecated", VBool true); ("pfm_range_min", VInt 0)]
  = Some [issue_deprecated "Key"; issue_type_mismatch "Key" (Some (VStr "integer")) (VStr "x")].
Proof.
  exact (validate_key_type_mismatch_short_circuit CPython.rt "Key" (VStr "x")
           [("pfm_type", VStr "integer"); ("pfm_deprecated", VBool true); ("pfm_range_min", VInt 0)]
           (VStr "integer") eq_refl eq_refl).
Defined.

(** ** C7: the wrapper-unwrap heuristic for array items *)

Lemma existsb_wrapper_false (rt : runtime) (w : pyval) (items : list pyval) :
  (forall kvs, In (VDict kvs) items -> has_key rt kvs w = false) ->
  existsb (fun item => match item with VDict kvs => has_key rt kvs w | _ => false end) items
  = false.
Proof.
  intros H. apply Bool.not_true_iff_false. intros E.
  apply existsb_exists in E as [x [Hx Hf]].
  destruct x; try discriminate. rewrite (H kvs Hx) in Hf. discriminate.
Qed.

(** C7 (amended): for an item-definition set with exactly one entry whose
    declared type is "dictionary": when no dict element of the array has the
    wrapper's name as a key and the wrapper's [pfm_subkeys] is non-empty, the
    effective item definitions are the wrapper's immediate nested subkey
    definitions; when the wrapper has no nested subkeys, or some element does
    have the wrapper key, the item definitions are returned unchanged. *)
Theorem unwrap_array_item_schema_spec (rt : runtime) (w : pyval) (wd : kdict)
  (items : list pyval) :
  lookup "pfm_type" wd = Some (VStr "dictionary") ->
  ((forall kvs, In (VDict kvs) items -> has_key rt kvs w = false) ->
   truthy (get_default "pfm_subkeys" wd (VArr [])) = true ->
   unwrap_array_item_schema rt [(w, wd)] items
   = get_immediate_subkey_defs rt (get_default "pfm_subkeys" wd (VArr []))) /\
  ((forall kvs, In (VDict kvs) items -> has_key rt kvs w = false) ->
   truthy (get_default "pfm_subkeys" wd (VArr [])) = false ->
   unwrap_array_item_schema rt [(w, wd)] items = Some [(w, wd)]) /\
  ((exists kvs, In (VDict kvs) items /\ has_key rt kvs w = true) ->
   unwrap_array_item_schema rt [(w, wd)] items = Some [(w, wd)]).
Proof.
  intros Ht. unfold unwrap_array_item_schema. rewrite Ht, opt_eq_str. simpl negb.
  cbv iota beta.
  split; [|split].
  - intros Hn Hs. rewrite (existsb_wrapper_false rt w items Hn), Hs. reflexivity.
  - intros Hn Hs. rewrite (existsb_wrapper_false rt w items Hn), Hs. reflexivity.
  - intros [kvs [Hin Hk]].
    assert (E : existsb (fun item => match item with VDict kvs0 => has_key rt kvs0 w
                                     | _ => false end) items = true)
      by (apply existsb_exists; exists (VDict kvs); auto).
    rewrite E. reflexivity.
Qed.

Definition wrapper_def : kdict :=
  [("pfm_name", VStr "Services"); ("pfm_type", VStr "dictionary");
   ("pfm_subkeys", VArr [VDict [("pfm_name", VStr "Identifier"); ("pfm_type", VStr "string");
                                ("pfm_require", VStr "always")]])].

(** Witness for C7: a TCC-style wrapper [Services] whose elements carry
    [Identifier] directly. *)
Lemma unwrap_array_item_schema_spec_witness :
  unwrap_array_item_schema CPython.rt [(VStr "Services", wrapper_def)]
    [VDict [("Identifier", VStr "com.example.app")]]
  = get_immediate_subkey_defs CPython.rt (get_default "pfm_subkeys" wrapper_def (VArr [])).
Proof.
  apply (proj1 (unwrap_array_item_schema_spec CPython.rt (VStr "Services") wrapper_def
                  [VDict [("Identifier", VStr "com.example.app")]] eq_refl)).
  - intros kvs [H|[]]. injection H as <-. reflexivity.
  - reflexivity.
Defined.

Definition bare_wrapper_def : kdict :=
  [("pfm_name", VStr "Services"); ("pfm_type", VStr "dictionary"); ("pfm_require", VStr "always")].

(** C7 counterexample: a dictionary wrapper without nested subkeys, absent
    from the only element, is not replaced by its (empty) nested definitions;
    the element is then reported for missing the wrapper key. *)
Lemma unwrap_without_nested_subkeys_counterexample :
  unwrap_array_item_schema CPython.rt [(VStr "Services", bare_wrapper_def)]
    [VDict [("Identifier", VStr "com.example.app")]]
  <> get_immediate_subkey_defs CPython.rt (get_default "pfm_subkeys" bare_wrapper_def (VArr [])) /\
  validate_key CPython.rt "Services" (VArr [VDict [("Identifier", VStr "com.example.app")]])
    [("pfm_type", VStr "array"); ("pfm_subkeys", VArr [VDict bare_wrapper_def])]
  = Some [issue_missing_key "Services[0].Services"].
Proof.
  split; [vm_compute; discriminate | vm_compute; reflexivity].
Qed.

(** ** C4: missing top-level fields *)

Definition empty_loader : loader := mkLoader [] [] (fun _ => FileMissing).

Definition profile_without_type : pyval :=
  VDict [("PayloadVersion", VInt 1); ("PayloadIdentifier", VStr "com.example.profile");
         ("PayloadUUID", VStr "5A8D5E3C-2F1B-4C6D-9E7F-0A1B2C3D4E5F");
         ("PayloadOrganization", VStr "Example"); ("PayloadContent", VArr [])].

(** C4 (code_bug): a profile lacking only [PayloadType] gets two errors at
    key path "PayloadType": E002 (missing key) and E004 (the sentinel check
    compares the absent value, [None], with "Configuration"). *)
Theorem missing_payload_type_two_errors :
  option_map (fun '(_, r) => map i_code (filter (fun i => is_error i &&
                                                 String.eqb (i_key_path i) "PayloadType")
                                                (r_issues r)))
    (validate CPython.rt empty_loader "profile.mobileconfig" (Parsed profile_without_type))
  = Some ["E002"; "E004"].
Proof. vm_compute. reflexivity. Qed.

(** ** C8: the schema version of a resolved payload type *)

Definition suffix_manifest : pyval :=
  VDict [("pfm_domain", VStr "com.apple.applicationaccess-macOS"); ("pfm_subkeys", VArr [])].

Definition suffix_loader : loader :=
  mkLoader [("com.apple.applicationaccess-macOS",
             mkInfo (VStr "ManifestsApple/com.apple.applicationaccess-macOS.plist")
                    (Some (VInt 2)) None "ManifestsApple")]
           []
           (fun p => if String.eqb p "ManifestsApple/com.apple.applicationaccess-macOS.plist"
                     then FileParsed suffix_manifest else FileMissing).

Definition profile_suffix_payload : pyval :=
  VDict [("PayloadType", VStr "Configuration"); ("PayloadVersion", VInt 1);
         ("PayloadIdentifier", VStr "com.example.profile");
         ("PayloadUUID", VStr "5A8D5E3C-2F1B-4C6D-9E7F-0A1B2C3D4E5F");
         ("PayloadOrganization", VStr "Example");
         ("PayloadContent",
            VArr [VDict [("PayloadType", VStr "com.apple.applicationaccess");
                         ("PayloadVersion", VInt 1);
                         ("PayloadIdentifier", VStr "com.example.restrictions");
                         ("PayloadUUID", VStr "6B9E6F4D-3A2C-4D7E-8F90-1B2C3D4E5F60")]])].

(** C8 (code_bug): [com.apple.applicationaccess] resolves through the
    "-macOS" suffix (its manifest is loaded and cached, no E001 is
    reported, no issue at all), but [get_manifest_version] looks the type up
    by exact key only, so the result's version map stays empty. *)
Theorem suffix_resolved_type_has_no_version :
  option_map (fun '(ld, r) => (ld_manifests ld, r_issues r, r_manifest_versions r))
    (validate CPython.rt suffix_loader "profile.mobileconfig" (Parsed profile_suffix_payload))
  = Some ([(VStr "com.apple.applicationaccess", suffix_manifest)], [], []).
Proof. vm_compute. reflexivity. Qed.

(** ** Which codes [_validate_key] can produce *)

Definition is_container (v : pyval) : bool :=
  match v with VArr _ | VDict _ => true | _ => false end.

(** Values stored in a dict, and in the dicts found inside an array: the
    two levels [_validate_key] recurses into. *)
Definition dict_values_hold (P : pyval -> Prop) (kvs : list (string * pyval)) : Prop :=
  Forall (fun kv => P (snd kv)) kvs.

Definition item_dicts_hold (P : pyval -> Prop) (xs : list pyval) : Prop :=
  Forall (fun x => match x with VDict kvs => dict_values_hold P kvs | _ => True end) xs.

Section PyvalInd.
Variable P : pyval -> Prop.
Hypothesis H_leaf : forall v, is_container v = false -> P v.
Hypothesis H_arr : forall xs, item_dicts_hold P xs -> P (VArr xs).
Hypothesis H_dict : forall kvs, dict_values_hold P kvs -> P (VDict kvs).

Fixpoint pyval_ind2 (v : pyval) : P v :=
  let values := fix values (m : list (string * pyval)) : dict_values_hold P m :=
                  match m with
                  | [] => Forall_nil _
                  | (k, x) :: t => @Forall_cons _ (fun kv => P (snd kv)) (k, x) t
                                     (pyval_ind2 x) (values t)
                  end in
  match v with
  | VArr xs =>
      H_arr xs
        ((fix items (l : list pyval) : item_dicts_hold P l :=
            match l with
            | [] => Forall_nil _
            | x :: t =>
                Forall_cons x
                  (match x return (match x with VDict kvs => dict_values_hold P kvs
                                                | _ => True end) with
                   | VDict kvs => values kvs
                   | _ => I
                   end) (items t)
            end) xs)
  | VDict kvs => H_dict kvs (values kvs)
  | VStr s => H_leaf (VStr s) eq_refl
  | VInt z => H_leaf (VInt z) eq_refl
  | VReal f => H_leaf (VReal f) eq_refl
  | VBool b => H_leaf (VBool b) eq_refl
  | VData bs => H_leaf (VData bs) eq_refl
  | VDate t => H_leaf (VDate t) eq_refl
  end.
End PyvalInd.

Lemma extend_each_codes {A} (cs : list string) (f : A -> option (list issue)) (l : list A) r :
  (forall x r', In x l -> f x = Some r' -> codes_in cs r') ->
  extend_each f l = Some r -> codes_in cs r.
Proof.
  revert r; induction l as [|x t IH]; simpl; intros r Hf H.
  - injection H as <-; constructor.
  - destruct (f x) as [h|] eqn:Hx; [|discriminate].
    destruct (extend_each f t) as [rest|] eqn:Ht; [|discriminate].
    injection H as <-. apply codes_in_app.
    + apply (Hf x); [left; reflexivity | exact Hx].
    + apply IH; [intros y r' Hy; apply Hf; right; exact Hy | reflexivity].
Qed.

Lemma extend_each_idx_codes {A} (cs : list string) (f : nat -> A -> option (list issue))
      (l : list A) : forall idx r,
  (forall i x r', In x l -> f i x = Some r' -> codes_in cs r') ->
  extend_each_idx f idx l = Some r -> codes_in cs r.
Proof.
  induction l as [|x t IH]; simpl; intros idx r Hf H.
  - injection H as <-; constructor.
  - destruct (f idx x) as [h|] eqn:Hx; [|discriminate].
    destruct (extend_each_idx f (S idx) t) as [rest|] eqn:Ht; [|discriminate].
    injection H as <-. apply codes_in_app.
    + apply (Hf idx x); [left; reflexivity | exact Hx].
    + apply (IH (S idx)); [intros i y r' Hy; apply Hf; right; exact Hy | exact Ht].
Qed.

Lemma required_missing_codes (rt : runtime) prefix d kvs :
  codes_in ["E002"] (required_missing rt prefix d kvs).
Proof.
  unfold codes_in, required_missing. apply Forall_forall. intros i Hi.
  apply in_flat_map in Hi. destruct Hi as [[n kd] [_ Hin]].
  destruct (_ && _); simpl in Hin; [destruct Hin as [<-|[]]; simpl; auto | destruct Hin].
Qed.

Lemma check_string_item_codes (rt : runtime) kp item sd l :
  check_string_item rt kp item sd = Some l -> codes_in ["E004"] l.
Proof.
  unfold check_string_item, codes_in.
  destruct (lookup "pfm_range_list" sd) as [rl|]; [|intros [= <-]; constructor].
  destruct (truthy rl); [|intros [= <-]; constructor].
  destruct (py_in rt item rl) as [[|]|]; try discriminate; [intros [= <-]; constructor|].
  destruct (py_len rl); intros H; inversion H; subst; repeat constructor.
Qed.

Definition vk_codes : list string := ["W001"; "E002"; "E003"; "E004"; "E005"; "E006"].

Ltac split_opts H :=
  repeat (cbv beta iota in H;
          match type of H with
          | (match (if ?b then _ else _) with Some _ => _ | None => _ end) = _ =>
              let E := fresh "B" in destruct b eqn:E
          | (match (match ?e with Some _ => _ | None => _ end) with Some _ => _ | None => _ end) = _ =>
              let E := fresh "E" in
              destruct e eqn:E; cbv beta iota in H; try discriminate H
          | (match ?e with Some _ => _ | None => _ end) = _ =>
              let E := fresh "E" in
              destruct e eqn:E; cbv beta iota in H; try discriminate H
          | (if ?b then _ else _) = _ => let E := fresh "B" in destruct b eqn:E
          end).

Ltac incl_tac :=
  let a := fresh "a" in let Ha := fresh "Ha" in
  intros a Ha; simpl in Ha |- *; intuition (subst; auto).

Ltac in_tac := simpl; repeat (first [left; reflexivity | right]).

Ltac codes_lit := unfold codes_in; repeat (apply Forall_cons; [in_tac|]); apply Forall_nil.

Ltac vk_weaken :=
  match goal with
  | |- codes_in vk_codes _ =>
      first [ apply codes_in_app
            | eapply codes_in_weaken; [|apply check_deprecated_codes]; incl_tac
            | eapply codes_in_weaken; [|apply required_missing_codes]; incl_tac
            | eapply codes_in_weaken; [|eapply check_range_list_codes; eassumption];
                incl_tac
            | eapply codes_in_weaken; [|eapply check_min_max_codes; eassumption];
                incl_tac
            | eapply codes_in_weaken; [|eapply check_format_codes; eassumption];
                incl_tac
            | eapply codes_in_weaken; [|eapply check_string_item_codes; eassumption];
                incl_tac
            | constructor ]
  | |- Forall _ _ => constructor
  | |- In _ _ => in_tac
  end.

Lemma validate_key_codes (rt : runtime) :
  forall v kp kd l, validate_key rt kp v kd = Some l -> codes_in vk_codes l.
Proof.
  induction v as [v Hc | xs IH | kvs IH] using pyval_ind2; intros kp kd l H.
  - destruct v; try discriminate Hc; cbn [validate_key] in H; split_opts H.
    all: injection H as <-; repeat vk_weaken.
  - cbn [validate_key] in H; split_opts H.
    all: injection H as <-; repeat vk_weaken.
    all: eapply extend_each_idx_codes; [|eassumption].
    all: intros i x r' Hx Hr.
    all: unfold item_dicts_hold in IH; rewrite Forall_forall in IH; specialize (IH x Hx).
    all: destruct x; try (injection Hr as <-; constructor).
    all: split_opts Hr; try (injection Hr as <-); repeat vk_weaken.
    all: eapply extend_each_codes; [|eassumption].
    all: intros [k v] r'' Hin Hv.
    all: unfold dict_values_hold in IH; rewrite Forall_forall in IH; specialize (IH (k, v) Hin).
    all: simpl in IH, Hv.
    all: destruct (defs_lookup rt (VStr k) d0); [eapply IH; eassumption | injection Hv as <-; constructor].
  - cbn [validate_key] in H; split_opts H.
    all: injection H as <-; repeat vk_weaken.
    all: eapply extend_each_codes; [|eassumption].
    all: intros [k v] r'' Hin Hv.
    all: unfold dict_values_hold in IH; rewrite Forall_forall in IH; specialize (IH (k, v) Hin).
    all: simpl in IH, Hv.
    all: destruct (defs_lookup rt (VStr k) d); [eapply IH; eassumption | injection Hv as <-; constructor].
Qed.

Lemma bind_app_codes (cs : list string) (a b : option (list issue)) l :
  (forall x, a = Some x -> codes_in cs x) -> (forall x, b = Some x -> codes_in cs x) ->
  (let* h := a in let* r := b in Some (h ++ r)%list) = Some l -> codes_in cs l.
Proof.
  intros Ha Hb H. destruct a as [h|]; [|discriminate]. destruct b as [r|]; [|discriminate].
  injection H as <-. apply codes_in_app; auto.
Qed.

Lemma manifest_required_codes (rt : runtime) prefix payload : forall d l,
  manifest_required rt prefix payload d = Some l -> codes_in ["E002"] l.
Proof.
  induction d as [|[kn kd] t IH]; intros l H; cbn [manifest_required] in H.
  - injection H as <-; constructor.
  - revert H; apply bind_app_codes; [|exact IH].
    intros x Hx; split_opts Hx; try (destruct kn; try discriminate Hx; split_opts Hx);
      injection Hx as <-; repeat constructor.
Qed.

Lemma manifest_keys_codes (rt : runtime) prefix d : forall kvs l,
  manifest_keys rt prefix d kvs = Some l -> codes_in ("W002" :: vk_codes) l.
Proof.
  induction kvs as [|[k v] t IH]; intros l H; cbn [manifest_keys] in H.
  - injection H as <-; constructor.
  - revert H; apply bind_app_codes; [|exact IH].
    intros x Hx; split_opts Hx; try (injection Hx as <-; solve [repeat constructor]).
    eapply codes_in_weaken; [|eapply validate_key_codes; eassumption]. incl_tac.
Qed.

Definition mf_codes : list string := "W003" :: "W002" :: vk_codes.

Lemma validate_payload_against_manifest_codes (rt : runtime) payload md prefix l :
  validate_payload_against_manifest rt payload md prefix = Some l -> codes_in mf_codes l.
Proof.
  unfold validate_payload_against_manifest. intros H; split_opts H; injection H as <-.
  all: repeat first [apply codes_in_app | unfold codes_in; apply Forall_cons; [in_tac|]].
  all: repeat match goal with
              | E : Some _ = Some _ |- _ => injection E as <-
              end.
  all: try solve [repeat constructor].
  all: first [ eapply codes_in_weaken; [|eapply manifest_required_codes; eassumption]; incl_tac
             | eapply codes_in_weaken; [|eapply manifest_keys_codes; eassumption]; incl_tac ].
Qed.

Lemma missing_required_codes prefix_of d :
  codes_in ["E002"] (missing_required prefix_of d).
Proof.
  unfold codes_in, missing_required. apply Forall_forall. intros i Hi.
  apply in_flat_map in Hi. destruct Hi as [key [_ Hin]].
  destruct (mem_key key d); simpl in Hin; [destruct Hin | destruct Hin as [<-|[]]; simpl; auto].
Qed.

Lemma check_version_codes (rt : runtime) kp d : codes_in ["E008"] (check_version rt kp d).
Proof.
  unfold check_version. destruct (lookup "PayloadVersion" d); [destruct (negb _)|]; repeat constructor.
Qed.

Lemma check_uuid_codes (rt : runtime) kp d l : check_uuid rt kp d = Some l -> codes_in ["E007"] l.
Proof.
  unfold check_uuid, validate_uuid. intros H; split_opts H; try (injection H as <-).
  all: repeat constructor.
  all: destruct p; try discriminate; injection H as <-; destruct (uuid_ok rt s); repeat constructor.
Qed.

Definition ps_codes : list string := ["E002"; "E008"; "E007"].

Lemma validate_payload_structure_codes (rt : runtime) p prefix l :
  validate_payload_structure rt p prefix = Some l -> codes_in ps_codes l.
Proof.
  unfold validate_payload_structure. intros H; split_opts H; injection H as <-.
  apply codes_in_app; [|apply codes_in_app].
  - eapply codes_in_weaken; [|apply missing_required_codes]; incl_tac.
  - eapply codes_in_weaken; [|apply check_version_codes]; incl_tac.
  - eapply codes_in_weaken; [|eapply check_uuid_codes; eassumption]; incl_tac.
Qed.

Definition profile_codes : list string := ["E002"; "E004"; "E008"; "E007"; "I002"].

Lemma validate_profile_structure_codes (rt : runtime) p l :
  validate_profile_structure rt p = Some l -> codes_in profile_codes l.
Proof.
  unfold validate_profile_structure. intros H; split_opts H; injection H as <-.
  apply codes_in_app; [|apply codes_in_app; [|apply codes_in_app; [|apply codes_in_app]]].
  - eapply codes_in_weaken; [|apply missing_required_codes]; incl_tac.
  - destruct (negb _); codes_lit.
  - eapply codes_in_weaken; [|apply check_version_codes]; incl_tac.
  - eapply codes_in_weaken; [|eapply check_uuid_codes; eassumption]; incl_tac.
  - destruct (mem_key _ _); codes_lit.
Qed.

(** ** The manifest cache during one run *)

(** A cache key [get_manifest] can store: only a [str] or a [bytes]
    PayloadType ever resolves to a manifest. *)
Definition str_or_bytes (k : pyval) : Prop :=
  match k with VStr _ | VData _ => True | _ => False end.

(** The loader a run starts from, [ld0], and the one it has reached: same
    index and files, and the cache has only grown by entries, keyed by a
    [str] or [bytes] PayloadType, that a fresh lookup from [ld0] also finds. *)
Definition cache_inv (rt : runtime) (ld0 ld : loader) : Prop :=
  ld_index ld = ld_index ld0 /\ ld_files ld = ld_files ld0 /\
  exists extra, ld_manifests ld = (ld_manifests ld0 ++ extra)%list /\
    Forall (fun km => str_or_bytes (fst km) /\
                      exists ld', resolve_uncached rt (fst km) ld0 = Some (ld', Some (snd km))) extra.

Lemma py_eq_key_l (rt : runtime) k v : str_or_bytes k -> py_eq rt k v = true -> v = k.
Proof.
  destruct k as [s| | | |x| | |]; simpl; try contradiction; intros _.
  - apply py_eq_str_l.
  - apply py_eq_data_l.
Qed.

Lemma py_eq_key_refl (rt : runtime) k : str_or_bytes k -> py_eq rt k k = true.
Proof.
  destruct k as [s| | | |x| | |]; simpl; try contradiction; intros _.
  - rewrite py_eq_str. apply String.eqb_refl.
  - rewrite py_eq_data. destruct (list_eq_dec Byte.byte_eq_dec x x); congruence.
Qed.

Lemma cache_inv_refl (rt : runtime) (ld : loader) : cache_inv rt ld ld.
Proof.
  split; [reflexivity|split; [reflexivity|]]. exists []. rewrite app_nil_r. split; auto.
Qed.

Lemma resolve_uncached_snd (rt : runtime) (pt : pyval) (ld ld0 : loader) :
  ld_index ld = ld_index ld0 -> ld_files ld = ld_files ld0 ->
  option_map snd (resolve_uncached rt pt ld) = option_map snd (resolve_uncached rt pt ld0).
Proof.
  intros Hi Hf. unfold resolve_uncached, index_get. rewrite Hi, Hf.
  repeat match goal with
         | |- context [match ?e with _ => _ end] => destruct e
         end; reflexivity.
Qed.

Lemma resolve_uncached_loader (rt : runtime) (pt : pyval) (ld ld' : loader) m :
  resolve_uncached rt pt ld = Some (ld', m) ->
  ld_index ld' = ld_index ld /\ ld_files ld' = ld_files ld /\
  (ld_manifests ld' = ld_manifests ld \/
   exists mf, m = Some mf /\ ld_manifests ld' = dict_set rt pt mf (ld_manifests ld)).
Proof.
  unfold resolve_uncached. intros H.
  repeat match type of H with
         | context [match ?e with _ => _ end] => destruct e
         end; try discriminate H; injection H as <- <-; simpl;
  (split; [reflexivity|split; [reflexivity|]]);
  first [left; reflexivity | right; eexists; split; reflexivity].
Qed.

Lemma resolve_uncached_found_key (rt : runtime) (pt : pyval) (ld ld' : loader) m :
  resolve_uncached rt pt ld = Some (ld', Some m) -> str_or_bytes pt.
Proof.
  destruct pt as [s| | | |x| | |]; simpl; try (intros _; exact I);
  unfold resolve_uncached, index_get; destruct (ld_index ld) as [|[d i] tl]; simpl;
  intros H; discriminate H.
Qed.

Lemma cache_lookup_app (rt : runtime) k l1 l2 :
  cache_lookup rt k (l1 ++ l2)%list =
  match cache_lookup rt k l1 with Some v => Some v | None => cache_lookup rt k l2 end.
Proof.
  induction l1 as [|[k' v] t IH]; simpl; [reflexivity|]. destruct (py_eq rt k' k); auto.
Qed.

Lemma cache_lookup_in (rt : runtime) k l v :
  cache_lookup rt k l = Some v -> exists k', In (k', v) l /\ py_eq rt k' k = true.
Proof.
  induction l as [|[k' w] t IH]; simpl; [discriminate|].
  destruct (py_eq rt k' k) eqn:E; [intros [= <-]; eauto|].
  intros H; destruct (IH H) as [k'' [Hin Heq]]; eauto.
Qed.

Lemma dict_set_absent (rt : runtime) k (x : pyval) l :
  cache_lookup rt k l = None -> dict_set rt k x l = (l ++ [(k, x)])%list.
Proof.
  induction l as [|[k' y] t IH]; simpl; intros H; [reflexivity|].
  destruct (py_eq rt k' k); [discriminate H|]. rewrite IH; auto.
Qed.

Lemma get_manifest_inv (rt : runtime) (ld0 ld ld' : loader) pt m :
  cache_inv rt ld0 ld -> get_manifest rt pt ld = Some (ld', m) -> cache_inv rt ld0 ld'.
Proof.
  intros [Hi [Hf [extra [Hm Hx]]]]. unfold get_manifest.
  destruct (negb (hashable pt)); [discriminate|].
  destruct (cache_lookup rt pt (ld_manifests ld)) as [c|] eqn:Hc.
  { intros [= <- _]. split; [exact Hi|split; [exact Hf|exists extra; auto]]. }
  intros H. pose proof (resolve_uncached_loader rt pt ld ld' m H) as [Hi' [Hf' Hm']].
  split; [congruence|split; [congruence|]].
  destruct Hm' as [Hm' | [mf [-> Hm']]].
  - exists extra. split; [congruence | exact Hx].
  - exists (extra ++ [(pt, mf)])%list. split.
    + rewrite Hm', dict_set_absent by exact Hc. rewrite Hm, app_assoc. reflexivity.
    + apply Forall_app. split; [exact Hx|]. constructor; [|constructor].
      split; [exact (resolve_uncached_found_key rt pt ld ld' mf H)|].
      pose proof (resolve_uncached_snd rt pt ld ld0 Hi Hf) as Hs.
      rewrite H in Hs. simpl in Hs.
      destruct (resolve_uncached rt pt ld0) as [[ld'' m'']|] eqn:Hr; simpl in Hs;
        [|discriminate].
      injection Hs as Hs; subst. exists ld''. exact Hr.
Qed.

Lemma get_manifest_unresolved (rt : runtime) (ld0 ld : loader) pt :
  cache_inv rt ld0 ld -> option_map snd (get_manifest rt pt ld0) = Some None ->
  exists ld', get_manifest rt pt ld = Some (ld', None).
Proof.
  intros [Hi [Hf [extra [Hm Hx]]]]. unfold get_manifest.
  destruct (negb (hashable pt)); [discriminate|].
  destruct (cache_lookup rt pt (ld_manifests ld0)) as [c|] eqn:Hc0; [discriminate|].
  intros H0.
  rewrite Hm, cache_lookup_app, Hc0.
  destruct (cache_lookup rt pt extra) as [c|] eqn:Hc.
  - exfalso. destruct (cache_lookup_in rt pt extra c Hc) as [k' [Hin Heq]].
    rewrite Forall_forall in Hx. destruct (Hx _ Hin) as [Hk [ld'' Hr]].
    simpl in Hk, Hr. apply (py_eq_key_l rt k' pt Hk) in Heq. subst pt.
    rewrite Hr in H0. discriminate H0.
  - rewrite <- (resolve_uncached_snd rt pt ld ld0 Hi Hf) in H0.
    destruct (resolve_uncached rt pt ld) as [[ld' m]|]; simpl in H0; [|discriminate].
    injection H0 as ->. eauto.
Qed.

(** ** The payload loop, element by element *)

(** How [all_uuids] changes on one element. *)
Definition uuid_step (rt : runtime) (e : pyval) (seen : list pyval) : list pyval :=
  match e with
  | VDict p => match lookup "PayloadUUID" p with
               | Some u => if truthy u then set_add rt u seen else seen
               | None => seen
               end
  | _ => seen
  end.

(** [all_uuids] when the loop reaches element [k]. *)
Fixpoint seen_before (rt : runtime) (seen : list pyval) (elems : list pyval) (k : nat)
  : list pyval :=
  match k, elems with
  | S k', e :: t => seen_before rt (uuid_step rt e seen) t k'
  | _, _ => seen
  end.

(** The duplicate-UUID issues of one element. *)
Definition dup_issues (rt : runtime) (p : kdict) (seen : list pyval) (prefix : string)
  : list issue :=
  match lookup "PayloadUUID" p with
  | Some u => if truthy u && set_mem rt u seen then [issue_duplicate_uuid prefix u] else []
  | None => []
  end.

(** The issues element [idx] contributes, in order: a non-dict gets one E003;
    a dict gets its duplicate-UUID error, its own structural issues, then
    either its schema-driven issues or the unknown-type warning (the latter
    whenever its type resolves to no manifest from the starting loader). *)
Definition element_block (rt : runtime) (ld0 : loader) (idx : nat) (e : pyval)
           (seen : list pyval) (b : list issue) : Prop :=
  let prefix := payload_prefix idx in
  match e with
  | VDict p =>
      let payload_type := get_default "PayloadType" p (VStr "") in
      exists ps sch,
        b = (dup_issues rt p seen prefix ++ ps ++ sch)%list /\
        validate_payload_structure rt p prefix = Some ps /\
        (sch = [issue_unknown_type prefix payload_type] \/
         exists md, validate_payload_against_manifest rt p md prefix = Some sch) /\
        (option_map snd (get_manifest rt payload_type ld0) = Some None ->
         sch = [issue_unknown_type prefix payload_type])
  | _ => b = [issue_not_dict prefix e]
  end.

Lemma process_payload_step (rt : runtime) (ld0 : loader) idx e st st1 :
  cache_inv rt ld0 (vs_loader st) ->
  process_payload rt idx e st = Some st1 ->
  cache_inv rt ld0 (vs_loader st1) /\
  vs_uuids st1 = uuid_step rt e (vs_uuids st) /\
  exists b, r_issues (vs_result st1) = (r_issues (vs_result st) ++ b)%list /\
            element_block rt ld0 idx e (vs_uuids st) b.
Proof.
  intros Hinv H. unfold process_payload in H.
  destruct e as [| | | | | | |p];
    try (injection H as <-; simpl; split; [exact Hinv|split; [reflexivity|eexists; split; reflexivity]]).
  unfold element_block.
  assert (Hstep : forall dup uuids,
    dup = dup_issues rt p (vs_uuids st) (payload_prefix idx) ->
    uuids = uuid_step rt (VDict p) (vs_uuids st) ->
    (let '(dup_issues, uuids) := (dup, uuids) in
     let r := add_issues (mkResult (r_file_path (vs_result st))
                (r_payload_types (vs_result st) ++ [get_default "PayloadType" p (VStr "")])%list
                (r_issues (vs_result st)) (r_manifest_versions (vs_result st))) dup_issues in
     let idents := (vs_identifiers st ++ [get_default "PayloadIdentifier" p (VStr "")])%list in
     let* ps := validate_payload_structure rt p (payload_prefix idx) in
     let r := add_issues r ps in
     let* gm := get_manifest rt (get_default "PayloadType" p (VStr "")) (vs_loader st) in
     let '(ld, manifest) := gm in
     if truthy_opt manifest then
       let version := get_manifest_version (get_default "PayloadType" p (VStr "")) ld in
       let r := match version with
                | Some v => if truthy v then
                              mkResult (r_file_path r) (r_payload_types r) (r_issues r)
                                       (dict_set rt (get_default "PayloadType" p (VStr "")) v
                                                 (r_manifest_versions r))
                            else r
                | None => r
                end in
       let* mi := match manifest with
                  | Some (VDict md) => validate_payload_against_manifest rt p md (payload_prefix idx)
                  | _ => None
                  end in
       Some (mkState ld (add_issues r mi) uuids idents)
     else
       Some (mkState ld (add_issues r [issue_unknown_type (payload_prefix idx)
                                         (get_default "PayloadType" p (VStr ""))]) uuids idents))
    = Some st1 ->
    cache_inv rt ld0 (vs_loader st1) /\
    vs_uuids st1 = uuid_step rt (VDict p) (vs_uuids st) /\
    exists b, r_issues (vs_result st1) = (r_issues (vs_result st) ++ b)%list /\
      (exists ps sch,
        b = (dup_issues rt p (vs_uuids st) (payload_prefix idx) ++ ps ++ sch)%list /\
        validate_payload_structure rt p (payload_prefix idx) = Some ps /\
        (sch = [issue_unknown_type (payload_prefix idx) (get_default "PayloadType" p (VStr ""))] \/
         exists md, validate_payload_against_manifest rt p md (payload_prefix idx) = Some sch) /\
        (option_map snd (get_manifest rt (get_default "PayloadType" p (VStr "")) ld0) = Some None ->
         sch = [issue_unknown_type (payload_prefix idx) (get_default "PayloadType" p (VStr ""))]))).
  { intros dup uuids -> -> H'. cbv beta iota zeta in H'. split_opts H'.
    destruct p0 as [ld m]; cbv beta iota in H'.
    destruct (truthy_opt m) eqn:Htm.
    - destruct m as [[| | | | | | |md]|]; cbv beta iota in H'; try discriminate H'.
      destruct (validate_payload_against_manifest rt p md (payload_prefix idx)) as [mi|] eqn:Emi;
        [|discriminate H'].
      injection H' as <-. simpl.
      split; [eapply get_manifest_inv; eassumption|]. split; [reflexivity|].
      exists (dup_issues rt p (vs_uuids st) (payload_prefix idx) ++ l ++ mi)%list. split.
      + destruct (get_manifest_version _ ld) as [v|]; [destruct (truthy v)|]; simpl;
          rewrite <- !app_assoc; reflexivity.
      + exists l, mi. split; [reflexivity|]. split; [first [reflexivity|assumption]|]. split; [right; eauto|].
        intros Hn. destruct (get_manifest_unresolved rt ld0 (vs_loader st) _ Hinv Hn) as [ld' Hg].
        rewrite Hg in E0. discriminate E0.
    - injection H' as <-. simpl.
      split; [eapply get_manifest_inv; eassumption|]. split; [reflexivity|].
      eexists. split; [rewrite <- !app_assoc; reflexivity|].
      eexists _, _. split; [reflexivity|]. split; [first [reflexivity|assumption]|]. split; [left; reflexivity|].
      intros _; reflexivity. }
  destruct (lookup "PayloadUUID" p) as [u|] eqn:Hu.
  - destruct (truthy u) eqn:Ht; [destruct (hashable u) eqn:Hh; [|cbv beta iota in H; discriminate H]|].
    all: cbv beta iota in H; eapply Hstep; [| |exact H];
         unfold dup_issues, uuid_step; rewrite Hu, ?Ht; reflexivity.
  - cbv beta iota in H; eapply Hstep; [| |exact H];
      unfold dup_issues, uuid_step; rewrite Hu; reflexivity.
Qed.

Lemma process_payloads_trace (rt : runtime) (ld0 : loader) :
  forall elems idx st st',
  cache_inv rt ld0 (vs_loader st) ->
  process_payloads rt idx elems st = Some st' ->
  exists blocks,
    r_issues (vs_result st') = (r_issues (vs_result st) ++ concat blocks)%list /\
    length blocks = length elems /\
    forall k e b, nth_error elems k = Some e -> nth_error blocks k = Some b ->
      element_block rt ld0 (idx + k) e (seen_before rt (vs_uuids st) elems k) b.
Proof.
  induction elems as [|e t IH]; intros idx st st' Hinv H; simpl in H.
  - injection H as <-. exists []. rewrite app_nil_r. split; [reflexivity|split; [reflexivity|]].
    intros [|k] ? ? He; discriminate He.
  - destruct (process_payload rt idx e st) as [st1|] eqn:H1; [|discriminate H].
    destruct (process_payload_step rt ld0 idx e st st1 Hinv H1) as [Hinv1 [Hu1 [b [Hb Hblk]]]].
    destruct (IH (S idx) st1 st' Hinv1 H) as [blocks [Hr [Hl Hk]]].
    exists (b :: blocks). split; [|split].
    + rewrite Hr, Hb. simpl. rewrite app_assoc. reflexivity.
    + simpl. congruence.
    + intros [|k] e' b' He Hb'; simpl in He, Hb'.
      * injection He as <-. injection Hb' as <-. rewrite Nat.add_0_r. exact Hblk.
      * cbn [seen_before]. rewrite <- Hu1. replace (idx + S k) with (S idx + k) by lia. apply Hk; assumption.
Qed.

Lemma identifier_issues_info (counts : list (pyval * nat)) :
  Forall (fun i => i_severity i = INFO /\ i_code i = "I003") (identifier_issues counts).
Proof.
  unfold identifier_issues. apply Forall_forall. intros i Hi.
  apply in_flat_map in Hi. destruct Hi as [[ident c] [_ Hin]].
  destruct (Nat.ltb 1 c); simpl in Hin; [destruct Hin as [<-|[]]; simpl; auto | destruct Hin].
Qed.

(** What [validate] returns for a parsed dict, phase by phase. *)
Lemma validate_decompose (rt : runtime) (ld ld' : loader) path profile r :
  validate rt ld path (Parsed (VDict profile)) = Some (ld', r) ->
  exists structure, validate_profile_structure rt profile = Some structure /\
  ((exists pc, get_default "PayloadContent" profile (VArr []) = pc /\
               (forall xs, pc <> VArr xs) /\
               r_issues r = (structure ++ [issue_content_not_array pc])%list) \/
   (exists elems seen0 blocks infos,
      get_default "PayloadContent" profile (VArr []) = VArr elems /\
      initial_uuids profile = Some seen0 /\
      r_issues r = (structure ++ concat blocks ++ infos)%list /\
      length blocks = length elems /\
      (forall k e b, nth_error elems k = Some e -> nth_error blocks k = Some b ->
         element_block rt ld k e (seen_before rt seen0 elems k) b) /\
      Forall (fun i => i_severity i = INFO /\ i_code i = "I003") infos)).
Proof.
  unfold validate. intros H.
  destruct (validate_profile_structure rt profile) as [structure|] eqn:Hs; [|discriminate H].
  exists structure; split; [reflexivity|].
  destruct (initial_uuids profile) as [seen0|] eqn:Hu; [|discriminate H].
  destruct (get_default "PayloadContent" profile (VArr [])) as [ | | | | | |elems|] eqn:Hpc;
    try (left; injection H as <- <-; eexists; split; [reflexivity|];
         split; [intros xs; discriminate | reflexivity]).
  right. destruct (process_payloads rt 0 elems _) as [st|] eqn:Hp; [|discriminate H].
  destruct (tally rt (vs_identifiers st) []) as [counts|] eqn:Ht; [|discriminate H].
  injection H as <- <-.
  set (st0 := mkState ld (mkResult path [] structure []) seen0
                      [get_default "PayloadIdentifier" profile (VStr "")]) in Hp.
  destruct (process_payloads_trace rt ld elems 0 st0 st (cache_inv_refl rt ld) Hp)
    as [blocks [Hr [Hl Hk]]].
  exists elems, seen0, blocks, (identifier_issues counts).
  split; [reflexivity|]. split; [reflexivity|]. split; [|split; [exact Hl|split]].
  - simpl. rewrite Hr. simpl. rewrite app_assoc. reflexivity.
  - intros k e b He Hb. exact (Hk k e b He Hb).
  - apply identifier_issues_info.
Qed.

(** ** Counting issues by code and key path *)

Definition count_at (code kp : string) (l : list issue) : nat :=
  length (filter (fun i => String.eqb (i_code i) code && String.eqb (i_key_path i) kp) l).

Lemma count_at_app code kp l1 l2 :
  count_at code kp (l1 ++ l2)%list = count_at code kp l1 + count_at code kp l2.
Proof. unfold count_at. rewrite filter_app, length_app. reflexivity. Qed.

Lemma count_at_absent cs code kp l : codes_in cs l -> ~ In code cs -> count_at code kp l = 0.
Proof.
  unfold codes_in, count_at. induction 1 as [|i l Hi _ IH]; simpl; intros Hn; [reflexivity|].
  destruct (String.eqb (i_code i) code) eqn:E; simpl; [|auto].
  apply String.eqb_eq in E. subst. contradiction.
Qed.

Lemma count_at_single code kp i :
  count_at code kp [i] = if String.eqb (i_code i) code && String.eqb (i_key_path i) kp then 1 else 0.
Proof. unfold count_at; simpl; destruct (_ && _); reflexivity. Qed.

Lemma count_at_concat_zero code kp blocks :
  (forall j b, nth_error blocks j = Some b -> count_at code kp b = 0) ->
  count_at code kp (concat blocks) = 0.
Proof.
  induction blocks as [|b t IH]; simpl; intros H; [reflexivity|].
  rewrite count_at_app, (H 0 b eq_refl), IH; [reflexivity|].
  intros j b' Hj. apply (H (S j)), Hj.
Qed.

Lemma count_at_concat_one code kp blocks : forall k bk,
  nth_error blocks k = Some bk -> count_at code kp bk = 1 ->
  (forall j b, j <> k -> nth_error blocks j = Some b -> count_at code kp b = 0) ->
  count_at code kp (concat blocks) = 1.
Proof.
  induction blocks as [|b t IH]; intros [|k] bk Hk H1 H0; simpl in Hk; try discriminate Hk;
    simpl; rewrite count_at_app.
  - injection Hk as <-. rewrite H1, count_at_concat_zero; [reflexivity|].
    intros j b' Hj. apply (H0 (S j)); [discriminate | exact Hj].
  - rewrite (H0 0 b ltac:(discriminate) eq_refl), (IH k bk Hk H1); [reflexivity|].
    intros j b' Hne Hj. apply (H0 (S j)); [congruence | exact Hj].
Qed.

(** ** Key paths of different elements differ *)

Lemma str_length_app (a b : string) : String.length (a ++ b) = String.length a + String.length b.
Proof. induction a as [|c a IH]; simpl; congruence. Qed.

Lemma str_app_cancel_r (a b t : string) : a ++ t = b ++ t -> a = b.
Proof.
  revert b; induction a as [|c a IH]; intros [|c' b] H; simpl in H.
  - reflexivity.
  - apply (f_equal String.length) in H. simpl in H. rewrite str_length_app in H. lia.
  - apply (f_equal String.length) in H. simpl in H. rewrite str_length_app in H. lia.
  - injection H as -> H. f_equal. apply IH, H.
Qed.

Lemma str_app_cancel_l (p a b : string) : p ++ a = p ++ b -> a = b.
Proof. induction p as [|c p IH]; simpl; intros H; [exact H | injection H; auto]. Qed.

Lemma to_uint_not_nil (n : nat) : Nat.to_uint n <> Decimal.Nil.
Proof.
  intros H. pose proof (DecimalNat.Unsigned.of_to n) as E. rewrite H in E. simpl in E.
  subst n. discriminate H.
Qed.

Lemma nat_str_inj (j k : nat) : nat_str j = nat_str k -> j = k.
Proof.
  unfold nat_str. intros H. apply (f_equal NilZero.uint_of_string) in H.
  rewrite !NilZero.usu in H by apply to_uint_not_nil.
  injection H as H. apply DecimalNat.Unsigned.to_uint_inj, H.
Qed.

Lemma payload_prefix_inj (j k : nat) (sfx : string) :
  payload_prefix j ++ sfx = payload_prefix k ++ sfx -> j = k.
Proof.
  unfold payload_prefix. intros H. apply str_app_cancel_r in H.
  apply str_app_cancel_l in H. apply str_app_cancel_r in H. apply nat_str_inj, H.
Qed.

(** ** The UUID seen-set *)

Lemma truthy_str (u : string) : u <> "" -> truthy (VStr u) = true.
Proof. intros Hu. cbn [truthy]. rewrite (proj2 (String.eqb_neq u "") Hu). reflexivity. Qed.

Lemma set_mem_add_keep (rt : runtime) x y s :
  set_mem rt x s = true -> set_mem rt x (set_add rt y s) = true.
Proof.
  unfold set_add. destruct (set_mem rt y s); [auto|].
  unfold set_mem. rewrite existsb_app. intros H; rewrite H; reflexivity.
Qed.

Lemma set_mem_add_self (rt : runtime) u s : set_mem rt (VStr u) (set_add rt (VStr u) s) = true.
Proof.
  unfold set_add. destruct (set_mem rt (VStr u) s) eqn:E; [exact E|].
  unfold set_mem. rewrite existsb_app. simpl. rewrite py_eq_str, String.eqb_refl.
  apply orb_true_r.
Qed.

Lemma seen_before_keep (rt : runtime) x : forall elems k s,
  set_mem rt x s = true -> set_mem rt x (seen_before rt s elems k) = true.
Proof.
  induction elems as [|e t IH]; intros [|k] s H; simpl; auto.
  apply IH. unfold uuid_step.
  destruct e; auto. destruct (lookup "PayloadUUID" kvs); auto.
  destruct (truthy p); auto. apply set_mem_add_keep, H.
Qed.

Lemma seen_before_adds (rt : runtime) u : forall elems j k s q,
  j < k -> nth_error elems j = Some (VDict q) -> lookup "PayloadUUID" q = Some (VStr u) ->
  u <> "" -> set_mem rt (VStr u) (seen_before rt s elems k) = true.
Proof.
  induction elems as [|e t IH]; intros [|j] [|k] s q Hjk Hj Hq Hu; simpl in Hj;
    try discriminate Hj; try lia.
  - injection Hj as ->. simpl. apply seen_before_keep. unfold uuid_step. rewrite Hq, truthy_str by exact Hu.
    apply set_mem_add_self.
  - simpl. apply (IH j k _ q); auto. lia.
Qed.

(** ** What one element's block contains *)

Lemma absent_E009_ps : ~ In "E009" ps_codes.
Proof. simpl; intuition discriminate. Qed.

Lemma absent_E009_mf : ~ In "E009" mf_codes.
Proof. simpl; intuition discriminate. Qed.

Lemma absent_E001_ps : ~ In "E001" ps_codes.
Proof. simpl; intuition discriminate. Qed.

Lemma absent_E001_mf : ~ In "E001" mf_codes.
Proof. simpl; intuition discriminate. Qed.

Lemma dup_issues_shape (rt : runtime) p seen prefix :
  dup_issues rt p seen prefix = [] \/
  exists u, dup_issues rt p seen prefix = [issue_duplicate_uuid prefix u].
Proof.
  unfold dup_issues. destruct (lookup "PayloadUUID" p) as [u|]; [|auto].
  destruct (truthy u && set_mem rt u seen); eauto.
Qed.

Lemma block_E009_other (rt : runtime) ld j k e seen b :
  j <> k -> element_block rt ld j e seen b ->
  count_at "E009" (payload_prefix k ++ ".PayloadUUID") b = 0.
Proof.
  intros Hne Hb. destruct e; cbv beta iota zeta delta [element_block] in Hb;
    try (subst b; reflexivity).
  destruct Hb as [ps [sch [-> [Hps [Hsch _]]]]]. rewrite !count_at_app.
  rewrite (count_at_absent ps_codes _ _ ps) by
    (eauto using validate_payload_structure_codes, absent_E009_ps).
  destruct Hsch as [-> | [md Hmd]].
  2: rewrite (count_at_absent mf_codes _ _ sch) by
       (eauto using validate_payload_against_manifest_codes, absent_E009_mf).
  all: destruct (dup_issues_shape rt kvs seen (payload_prefix j)) as [-> | [u ->]]; [reflexivity|].
  all: rewrite count_at_single; unfold issue_duplicate_uuid; cbn [i_code i_key_path];
       rewrite String.eqb_refl; cbn [andb].
  all: destruct (String.eqb_spec (payload_prefix j ++ ".PayloadUUID")
                                 (payload_prefix k ++ ".PayloadUUID")) as [Heq|]; [|reflexivity].
  all: apply payload_prefix_inj in Heq; contradiction.
Qed.

Lemma block_E001_other (rt : runtime) ld j k e seen b :
  j <> k -> element_block rt ld j e seen b ->
  count_at "E001" (payload_prefix k ++ ".PayloadType") b = 0.
Proof.
  intros Hne Hb. destruct e; cbv beta iota zeta delta [element_block] in Hb;
    try (subst b; reflexivity).
  destruct Hb as [ps [sch [-> [Hps [Hsch _]]]]]. rewrite !count_at_app.
  rewrite (count_at_absent ps_codes _ _ ps) by
    (eauto using validate_payload_structure_codes, absent_E001_ps).
  assert (Hd : count_at "E001" (payload_prefix k ++ ".PayloadType")
                 (dup_issues rt kvs seen (payload_prefix j)) = 0)
    by (destruct (dup_issues_shape rt kvs seen (payload_prefix j)) as [-> | [u ->]]; reflexivity).
  rewrite Hd. destruct Hsch as [-> | [md Hmd]].
  2: rewrite (count_at_absent mf_codes _ _ sch) by
       (eauto using validate_payload_against_manifest_codes, absent_E001_mf); reflexivity.
  rewrite count_at_single; unfold issue_unknown_type; cbn [i_code i_key_path];
    rewrite String.eqb_refl; cbn [andb].
  destruct (String.eqb_spec (payload_prefix j ++ ".PayloadType")
                            (payload_prefix k ++ ".PayloadType")) as [Heq|]; [|reflexivity].
  apply payload_prefix_inj in Heq; contradiction.
Qed.

Definition e001_warn (i : issue) : Prop := i_code i = "E001" -> i_severity i = WARNING.

Lemma codes_e001 cs l : codes_in cs l -> ~ In "E001" cs -> Forall e001_warn l.
Proof.
  unfold codes_in, e001_warn. intros H Hn. eapply Forall_impl; [|exact H].
  intros i Hi Hc. cbv beta in Hi. rewrite Hc in Hi. contradiction.
Qed.

Lemma block_e001 (rt : runtime) ld j e seen b :
  element_block rt ld j e seen b -> Forall e001_warn b.
Proof.
  intros Hb. destruct e; cbv beta iota zeta delta [element_block] in Hb;
    try (subst b; constructor; [intros Hc; discriminate Hc | constructor]).
  destruct Hb as [ps [sch [-> [Hps [Hsch _]]]]].
  apply Forall_app; split; [|apply Forall_app; split].
  - destruct (dup_issues_shape rt kvs seen (payload_prefix j)) as [-> | [u ->]];
      repeat constructor. intros Hc; discriminate Hc.
  - eauto using codes_e001, validate_payload_structure_codes, absent_E001_ps.
  - destruct Hsch as [-> | [md Hmd]]; [repeat constructor|].
    eauto using codes_e001, validate_payload_against_manifest_codes, absent_E001_mf.
Qed.

Lemma Forall_concat_blocks {A} (P : A -> Prop) (blocks : list (list A)) :
  (forall j b, nth_error blocks j = Some b -> Forall P b) -> Forall P (concat blocks).
Proof.
  induction blocks as [|b t IH]; simpl; intros H; [constructor|].
  apply Forall_app; split; [apply (H 0), eq_refl|]. apply IH. intros j b' Hj; apply (H (S j)), Hj.
Qed.

Lemma nth_error_same_length {A B} (xs : list A) (ys : list B) k y :
  length ys = length xs -> nth_error ys k = Some y -> exists x, nth_error xs k = Some x.
Proof.
  intros Hl Hy. destruct (nth_error xs k) as [x|] eqn:Hx; [eauto|].
  apply nth_error_None in Hx. assert (k < length ys) by (apply nth_error_Some; congruence). lia.
Qed.

Lemma is_valid_drop (r : validation_result) l1 w l2 :
  r_issues r = (l1 ++ w :: l2)%list -> is_error w = false ->
  is_valid r = negb (existsb is_error (l1 ++ l2)).
Proof.
  unfold is_valid. intros -> Hw. rewrite !existsb_app. simpl. rewrite Hw. reflexivity.
Qed.

(** ** C9: issues come out phase by phase *)

(** C9: for a parsed dict, [validate]'s issue list is the document-structural
    issues, then one block per payload element in element order, then the
    duplicate-identifier infos (all INFO, code I003).  When PayloadContent is
    not a list, the structural issues are followed by its single E003 and
    nothing else.  A dict element's block is its duplicate-UUID error (if
    any), then its own structural issues, then its schema-driven issues (or
    the unknown-type warning); a non-dict element's block is one E003. *)
Theorem validate_issue_order (rt : runtime) (ld ld' : loader) (path : string) (profile : kdict)
        (r : validation_result) :
  validate rt ld path (Parsed (VDict profile)) = Some (ld', r) ->
  exists structure, validate_profile_structure rt profile = Some structure /\
  ((exists pc, get_default "PayloadContent" profile (VArr []) = pc /\
               (forall xs, pc <> VArr xs) /\
               r_issues r = (structure ++ [issue_content_not_array pc])%list) \/
   (exists elems seen0 blocks infos,
      get_default "PayloadContent" profile (VArr []) = VArr elems /\
      initial_uuids profile = Some seen0 /\
      r_issues r = (structure ++ concat blocks ++ infos)%list /\
      length blocks = length elems /\
      (forall k e b, nth_error elems k = Some e -> nth_error blocks k = Some b ->
         element_block rt ld k e (seen_before rt seen0 elems k) b) /\
      Forall (fun i => i_severity i = INFO /\ i_code i = "I003") infos)).
Proof. apply validate_decompose. Qed.

(** ** C5: a repeated PayloadUUID is an error at the repeating element *)

(** C5: if element [k] of PayloadContent is a dict whose PayloadUUID is a
    non-empty string [u] that was already seen (it is the document-level
    UUID, or some earlier dict element carries it, whether or not that
    earlier element was itself flagged), the issues contain the error E009
    at [PayloadContent[k].PayloadUUID], and it is the only E009 with that key path. *)
Theorem duplicate_uuid_error (rt : runtime) (ld ld' : loader) (path : string) (profile : kdict)
        (r : validation_result) (elems : list pyval) (k : nat) (p : kdict) (u : string) :
  validate rt ld path (Parsed (VDict profile)) = Some (ld', r) ->
  get_default "PayloadContent" profile (VArr []) = VArr elems ->
  nth_error elems k = Some (VDict p) ->
  lookup "PayloadUUID" p = Some (VStr u) -> u <> "" ->
  (lookup "PayloadUUID" profile = Some (VStr u) \/
   exists j q, j < k /\ nth_error elems j = Some (VDict q) /\
               lookup "PayloadUUID" q = Some (VStr u)) ->
  In (issue_duplicate_uuid (payload_prefix k) (VStr u)) (r_issues r) /\
  i_severity (issue_duplicate_uuid (payload_prefix k) (VStr u)) = ERROR /\
  count_at "E009" (payload_prefix k ++ ".PayloadUUID") (r_issues r) = 1.
Proof.
  intros Hv Hpc Hk Hp Hu Hseen.
  destruct (validate_decompose rt ld ld' path profile r Hv)
    as [structure [Hs [[pc [Hpc' [Hna _]]] |
                       [elems' [seen0 [blocks [infos [Hpc' [Hu0 [Hr [Hl [Hblk Hinfo]]]]]]]]]]]].
  { rewrite Hpc in Hpc'. subst pc. exfalso. apply (Hna elems); reflexivity. }
  rewrite Hpc in Hpc'. injection Hpc' as <-.
  destruct (nth_error blocks k) as [bk|] eqn:Hbk.
  2: { apply nth_error_None in Hbk.
       assert (k < length elems) by (apply nth_error_Some; congruence). lia. }
  assert (Hmem : set_mem rt (VStr u) (seen_before rt seen0 elems k) = true).
  { destruct Hseen as [Ho | [j [q [Hjk [Hj Hq]]]]].
    - apply seen_before_keep. unfold initial_uuids in Hu0. rewrite Ho, truthy_str in Hu0 by exact Hu.
      cbn [hashable] in Hu0. injection Hu0 as <-.
      cbn [set_mem existsb]. rewrite py_eq_str, String.eqb_refl. reflexivity.
    - eapply seen_before_adds; eauto. }
  pose proof (Hblk k _ _ Hk Hbk) as Hek. cbv beta iota zeta delta [element_block] in Hek.
  destruct Hek as [ps [sch [Hbeq [Hps [Hsch _]]]]].
  assert (Hdup : dup_issues rt p (seen_before rt seen0 elems k) (payload_prefix k)
                 = [issue_duplicate_uuid (payload_prefix k) (VStr u)]).
  { unfold dup_issues. rewrite Hp, Hmem, truthy_str by exact Hu. reflexivity. }
  split; [|split; [reflexivity|]].
  - rewrite Hr. apply in_or_app; right; apply in_or_app; left.
    apply in_concat. exists bk. split; [eapply nth_error_In; eauto|].
    rewrite Hbeq, Hdup. left; reflexivity.
  - rewrite Hr, !count_at_app.
    rewrite (count_at_absent profile_codes _ _ structure)
      by (eauto using validate_profile_structure_codes; simpl; intuition discriminate).
    rewrite (count_at_absent ["I003"] _ _ infos).
    2: { unfold codes_in. eapply Forall_impl; [|exact Hinfo]. intros i [_ ->]. left; reflexivity. }
    2: { simpl; intuition discriminate. }
    rewrite (count_at_concat_one _ _ blocks k bk Hbk); [reflexivity| |].
    + rewrite Hbeq, Hdup, !count_at_app, count_at_single.
      unfold issue_duplicate_uuid; cbn [i_code i_key_path]. rewrite !String.eqb_refl.
      rewrite (count_at_absent ps_codes _ _ ps)
        by (eauto using validate_payload_structure_codes, absent_E009_ps).
      destruct Hsch as [-> | [md Hmd]]; [reflexivity|].
      rewrite (count_at_absent mf_codes _ _ sch)
        by (eauto using validate_payload_against_manifest_codes, absent_E009_mf).
      reflexivity.
    + intros j b Hne Hj.
      destruct (nth_error_same_length elems blocks j b Hl Hj) as [e He].
      eapply block_E009_other; [exact Hne | exact (Hblk j e b He Hj)].
Qed.

(** ** C6: an unresolvable payload type is one warning, never an error *)

(** C6: if element [k] of PayloadContent is a dict whose PayloadType finds
    no manifest from the loader the run starts with, the issues contain
    exactly one issue with code E001 at [PayloadContent[k].PayloadType]; it
    is the WARNING [issue_unknown_type], every E001 issue of the run is a
    WARNING, and taking that issue out of the list leaves [is_valid]
    unchanged. *)
Theorem unknown_type_single_warning (rt : runtime) (ld ld' : loader) (path : string)
        (profile : kdict) (r : validation_result) (elems : list pyval) (k : nat) (p : kdict) :
  validate rt ld path (Parsed (VDict profile)) = Some (ld', r) ->
  get_default "PayloadContent" profile (VArr []) = VArr elems ->
  nth_error elems k = Some (VDict p) ->
  option_map snd (get_manifest rt (get_default "PayloadType" p (VStr "")) ld) = Some None ->
  count_at "E001" (payload_prefix k ++ ".PayloadType") (r_issues r) = 1 /\
  i_severity (issue_unknown_type (payload_prefix k) (get_default "PayloadType" p (VStr "")))
    = WARNING /\
  Forall (fun i => i_code i = "E001" -> i_severity i = WARNING) (r_issues r) /\
  exists l1 l2,
    r_issues r = (l1 ++ issue_unknown_type (payload_prefix k)
                          (get_default "PayloadType" p (VStr "")) :: l2)%list /\
    is_valid r = negb (existsb is_error (l1 ++ l2)).
Proof.
  intros Hv Hpc Hk Hun.
  destruct (validate_decompose rt ld ld' path profile r Hv)
    as [structure [Hs [[pc [Hpc' [Hna _]]] |
                       [elems' [seen0 [blocks [infos [Hpc' [Hu0 [Hr [Hl [Hblk Hinfo]]]]]]]]]]]].
  { rewrite Hpc in Hpc'. subst pc. exfalso. apply (Hna elems); reflexivity. }
  rewrite Hpc in Hpc'. injection Hpc' as <-.
  destruct (nth_error blocks k) as [bk|] eqn:Hbk.
  2: { apply nth_error_None in Hbk.
       assert (k < length elems) by (apply nth_error_Some; congruence). lia. }
  pose proof (Hblk k _ _ Hk Hbk) as Hek. cbv beta iota zeta delta [element_block] in Hek.
  destruct Hek as [ps [sch [Hbeq [Hps [_ Hunk]]]]].
  specialize (Hunk Hun). subst sch.
  set (w := issue_unknown_type (payload_prefix k) (get_default "PayloadType" p (VStr ""))) in *.
  assert (Hinfo' : codes_in ["I003"] infos).
  { unfold codes_in. eapply Forall_impl; [|exact Hinfo]. intros i [_ ->]. left; reflexivity. }
  split; [|split; [reflexivity|split]].
  - rewrite Hr, !count_at_app.
    rewrite (count_at_absent profile_codes _ _ structure)
      by (eauto using validate_profile_structure_codes; simpl; intuition discriminate).
    rewrite (count_at_absent ["I003"] _ _ infos Hinfo') by (simpl; intuition discriminate).
    rewrite (count_at_concat_one _ _ blocks k bk Hbk); [reflexivity| |].
    + rewrite Hbeq, !count_at_app.
      rewrite (count_at_absent ps_codes _ _ ps)
        by (eauto using validate_payload_structure_codes, absent_E001_ps).
      assert (Hd : count_at "E001" (payload_prefix k ++ ".PayloadType")
                     (dup_issues rt p (seen_before rt seen0 elems k) (payload_prefix k)) = 0)
        by (destruct (dup_issues_shape rt p (seen_before rt seen0 elems k) (payload_prefix k))
              as [-> | [u ->]]; reflexivity).
      rewrite Hd, count_at_single. subst w. unfold issue_unknown_type; cbn [i_code i_key_path].
      rewrite !String.eqb_refl. reflexivity.
    + intros j b Hne Hj.
      destruct (nth_error_same_length elems blocks j b Hl Hj) as [e He].
      eapply block_E001_other; [exact Hne | exact (Hblk j e b He Hj)].
  - rewrite Hr. apply Forall_app; split; [|apply Forall_app; split].
    + apply (codes_e001 profile_codes);
        [eapply validate_profile_structure_codes; eassumption | simpl; intuition discriminate].
    + apply Forall_concat_blocks. intros j b Hj.
      destruct (nth_error_same_length elems blocks j b Hl Hj) as [e He].
      exact (block_e001 rt ld j e _ b (Hblk j e b He Hj)).
    + apply (codes_e001 ["I003"]); [exact Hinfo' | simpl; intuition discriminate].
  - destruct (nth_error_split blocks k Hbk) as [pre [post [Hsplit _]]].
    exists (structure ++ concat pre ++ dup_issues rt p (seen_before rt seen0 elems k) (payload_prefix k)
            ++ ps)%list, (concat post ++ infos)%list.
    assert (Hiss : r_issues r =
              ((structure ++ concat pre ++
                dup_issues rt p (seen_before rt seen0 elems k) (payload_prefix k) ++ ps) ++
               w :: concat post ++ infos)%list).
    { rewrite Hr, Hsplit, concat_app. simpl. rewrite Hbeq. rewrite <- !app_assoc. reflexivity. }
    split; [exact Hiss|]. apply (is_valid_drop r _ w _ Hiss). reflexivity.
Qed.

(** ** A concrete run for C5, C6 and C9

    A profile whose three payloads all have a type no manifest knows; the
    first and third reuse the document-level UUID. *)

Definition demo_uuid : string := "11111111-2222-3333-4444-555555555555".

Definition demo_fields (ty ident uuid : string) : kdict :=
  [("PayloadType", VStr ty); ("PayloadVersion", VInt 1%Z);
   ("PayloadIdentifier", VStr ident); ("PayloadUUID", VStr uuid)].

Definition demo_elems : list pyval :=
  [VDict (demo_fields "com.example.settings" "com.example.a" demo_uuid);
   VDict (demo_fields "com.example.settings" "com.example.b" "22222222-2222-3333-4444-555555555555");
   VDict (demo_fields "com.example.settings" "com.example.c" demo_uuid)].

Definition demo_profile : kdict :=
  [("PayloadType", VStr "Configuration"); ("PayloadVersion", VInt 1%Z);
   ("PayloadIdentifier", VStr "com.example.profile"); ("PayloadUUID", VStr demo_uuid);
   ("PayloadOrganization", VStr "Example"); ("PayloadContent", VArr demo_elems)].

Definition demo_run : option (loader * validation_result) :=
  validate CPython.rt empty_loader "demo.mobileconfig" (Parsed (VDict demo_profile)).

Definition demo_loader : loader :=
  match demo_run with Some (ld, _) => ld | None => empty_loader end.

Definition demo_result : validation_result :=
  match demo_run with Some (_, r) => r | None => mkResult "" [] [] [] end.

Lemma validate_issue_order_witness :
  exists structure, validate_profile_structure CPython.rt demo_profile = Some structure /\
  ((exists pc, get_default "PayloadContent" demo_profile (VArr []) = pc /\
               (forall xs, pc <> VArr xs) /\
               r_issues demo_result = (structure ++ [issue_content_not_array pc])%list) \/
   (exists elems seen0 blocks infos,
      get_default "PayloadContent" demo_profile (VArr []) = VArr elems /\
      initial_uuids demo_profile = Some seen0 /\
      r_issues demo_result = (structure ++ concat blocks ++ infos)%list /\
      length blocks = length elems /\
      (forall k e b, nth_error elems k = Some e -> nth_error blocks k = Some b ->
         element_block CPython.rt empty_loader k e (seen_before CPython.rt seen0 elems k) b) /\
      Forall (fun i => i_severity i = INFO /\ i_code i = "I003") infos)).
Proof.
  apply (validate_issue_order CPython.rt empty_loader demo_loader "demo.mobileconfig"
           demo_profile demo_result).
  vm_compute. reflexivity.
Defined.

Lemma duplicate_uuid_error_witness :
  In (issue_duplicate_uuid (payload_prefix 2) (VStr demo_uuid)) (r_issues demo_result) /\
  i_severity (issue_duplicate_uuid (payload_prefix 2) (VStr demo_uuid)) = ERROR /\
  count_at "E009" (payload_prefix 2 ++ ".PayloadUUID") (r_issues demo_result) = 1.
Proof.
  apply (duplicate_uuid_error CPython.rt empty_loader demo_loader "demo.mobileconfig"
           demo_profile demo_result demo_elems 2
           (demo_fields "com.example.settings" "com.example.c" demo_uuid) demo_uuid).
  - vm_compute. reflexivity.
  - reflexivity.
  - reflexivity.
  - reflexivity.
  - discriminate.
  - right. exists 0, (demo_fields "com.example.settings" "com.example.a" demo_uuid).
    split; [lia | split; reflexivity].
Defined.

Lemma unknown_type_single_warning_witness :
  count_at "E001" (payload_prefix 1 ++ ".PayloadType") (r_issues demo_result) = 1 /\
  i_severity (issue_unknown_type (payload_prefix 1) (VStr "com.example.settings")) = WARNING /\
  Forall (fun i => i_code i = "E001" -> i_severity i = WARNING) (r_issues demo_result) /\
  exists l1 l2,
    r_issues demo_result =
      (l1 ++ issue_unknown_type (payload_prefix 1) (VStr "com.example.settings") :: l2)%list /\
    is_valid demo_result = negb (existsb is_error (l1 ++ l2)).
Proof.
  apply (unknown_type_single_warning CPython.rt empty_loader demo_loader "demo.mobileconfig"
           demo_profile demo_result demo_elems 1
           (demo_fields "com.example.settings" "com.example.b"
                        "22222222-2222-3333-4444-555555555555")).
  - vm_compute. reflexivity.
  - reflexivity.
  - reflexivity.
  - vm_compute. reflexivity.
Defined.

(** * Further properties of the code *)

(** ** Counting issues and results (types.py) *)

Lemma length_filter_negb {A} (p : A -> bool) (l : list A) :
  (List.length (filter p l) + List.length (filter (fun x => negb (p x)) l))%nat = List.length l.
Proof.
  induction l as [|x t IH]; simpl; [reflexivity|]. destruct (p x); simpl; lia.
Qed.

Lemma is_valid_error_count (r : validation_result) : is_valid r = true <-> error_count r = 0%nat.
Proof.
  unfold is_valid, error_count. induction (r_issues r) as [|i t IH]; simpl; [tauto|].
  destruct (is_error i); simpl; [split; discriminate | exact IH].
Qed.

(** [ValidationResult.error_count], [warning_count] and [info_count]
    together count every issue of a result exactly once. *)
Theorem severity_counts_partition (r : validation_result) :
  (error_count r + warning_count r + info_count r)%nat = List.length (r_issues r).
Proof.
  unfold error_count, warning_count, info_count, is_error, is_warning, is_info.
  induction (r_issues r) as [|i t IH]; simpl; [reflexivity|].
  destruct (i_severity i); simpl; lia.
Qed.

Lemma invalid_files_filter (b : batch_result) :
  invalid_files b = Z.of_nat (List.length (filter (fun r => negb (is_valid r)) (b_results b))).
Proof.
  unfold invalid_files, total_files, valid_files.
  rewrite <- (length_filter_negb is_valid (b_results b)). lia.
Qed.

(** [BatchResult.invalid_files] is the number of results that are not
    valid; in particular it is never negative. *)
Theorem invalid_files_counts_invalid (b : batch_result) :
  invalid_files b = Z.of_nat (List.length (filter (fun r => negb (is_valid r)) (b_results b))).
Proof. exact (invalid_files_filter b). Qed.

(** A batch is valid exactly when its total error count is zero, and
    exactly when no file is counted as invalid. *)
Theorem batch_is_valid_iff (b : batch_result) :
  (batch_is_valid b = true <-> batch_error_count b = 0%nat) /\
  (batch_is_valid b = true <-> invalid_files b = 0%Z).
Proof.
  rewrite invalid_files_filter.
  unfold batch_is_valid, batch_error_count.
  induction (b_results b) as [|r t IH]; simpl; [tauto|].
  pose proof (is_valid_error_count r) as Hr.
  destruct (is_valid r); simpl.
  - assert (error_count r = 0%nat) as -> by (apply Hr; reflexivity). simpl. exact IH.
  - split; split; try discriminate; intros H.
    assert (error_count r = 0%nat) by lia. apply Hr in H0. discriminate.
Qed.

(** ** The domain index built by [load_index] *)

Lemma fold_left_inv {A B} (P : A -> Prop) (f : A -> B -> A) (l : list B) (a : A) :
  P a -> (forall a x, In x l -> P a -> P (f a x)) -> P (fold_left f l a).
Proof.
  revert a. induction l as [|x t IH]; simpl; intros a Ha Hf; [exact Ha|].
  apply IH; [apply Hf; auto | intros; apply Hf; auto].
Qed.

Lemma str_assoc_index_set (d k : string) (x : index_info) l :
  str_assoc d (index_set k x l) = if String.eqb k d then Some x else str_assoc d l.
Proof.
  induction l as [|[k' y] t IH]; simpl; [reflexivity|].
  destruct (String.eqb_spec k' k) as [->|Hne]; simpl.
  - destruct (k =? d); reflexivity.
  - rewrite IH. destruct (String.eqb_spec k d); [subst|]; [|reflexivity].
    destruct (String.eqb_spec k' d); [congruence | reflexivity].
Qed.

Lemma keys_index_set (k : string) (x : index_info) l :
  map fst (index_set k x l) = if existsb (String.eqb k) (map fst l) then map fst l
                              else (map fst l ++ [k])%list.
Proof.
  induction l as [|[k' y] t IH]; simpl; [reflexivity|].
  destruct (String.eqb_spec k' k) as [->|Hne]; simpl.
  - rewrite String.eqb_refl. reflexivity.
  - rewrite IH. destruct (String.eqb_spec k k'); [congruence|]. simpl.
    destruct (existsb (String.eqb k) (map fst t)); reflexivity.
Qed.

Lemma in_keys_index_set (d k : string) (x : index_info) l :
  In d (map fst (index_set k x l)) <-> d = k \/ In d (map fst l).
Proof.
  rewrite keys_index_set. destruct (existsb (String.eqb k) (map fst l)) eqn:E.
  - apply existsb_exists in E. destruct E as [k' [Hin Heq]]. apply String.eqb_eq in Heq.
    subst k'. split; [auto|]. intros [->|H]; auto.
  - rewrite in_app_iff. simpl. intuition.
Qed.

Lemma in_keys_str_assoc {A} (d : string) (l : list (string * A)) :
  In d (map fst l) -> exists x, str_assoc d l = Some x.
Proof.
  induction l as [|[k x] t IH]; simpl; [intros []|].
  destruct (String.eqb_spec k d); [eauto|]. intros [->|H]; [congruence | exact (IH H)].
Qed.

Lemma build_index_mono (d : string) (data : list (string * pyval)) idx0 :
  In d (map fst idx0) ->
  In d (map fst (fold_left (fun idx '(category, domains) =>
    if String.eqb category "date" then idx
    else match domains with
         | VDict ds =>
             fold_left (fun idx' '(domain, info) =>
               match info with
               | VDict i =>
                   index_set domain (mkInfo (get_default "path" i (VStr ""))
                                            (lookup "version" i) (lookup "modified" i)
                                            category) idx'
               | _ => idx'
               end) ds idx
         | _ => idx
         end) data idx0)).
Proof.
  intros H0. apply fold_left_inv with (P := fun idx => In d (map fst idx)); [exact H0|].
  intros idx [c domains] _ Hn. destruct (String.eqb c "date"); [exact Hn|].
  destruct domains; try exact Hn.
  apply fold_left_inv with (P := fun idx => In d (map fst idx)); [exact Hn|].
  intros idx' [d' info] _ Hn'. destruct info; try exact Hn'.
  apply in_keys_index_set. auto.
Qed.

Lemma index_entry_origin (data : list (string * pyval)) (ld : loader) (d : string)
        (info : index_info) :
  ld_index ld = build_index data -> index_get (VStr d) ld = Some info ->
  exists c ds i, In (c, VDict ds) data /\ c <> "date" /\ In (d, VDict i) ds /\
    info = mkInfo (get_default "path" i (VStr "")) (lookup "version" i) (lookup "modified" i) c.
Proof.
  intros H. unfold index_get. rewrite H. unfold build_index. revert info.
  apply fold_left_inv with (P := fun idx => forall info, str_assoc d idx = Some info ->
    exists c ds i, In (c, VDict ds) data /\ c <> "date" /\ In (d, VDict i) ds /\
    info = mkInfo (get_default "path" i (VStr "")) (lookup "version" i) (lookup "modified" i) c).
  { intros info Hs. discriminate Hs. }
  intros idx [c domains] Hc Hn. destruct (String.eqb_spec c "date") as [_|Hd]; [exact Hn|].
  destruct domains as [ | | | | | | |ds]; try exact Hn.
  apply fold_left_inv with (P := fun idx => forall info, str_assoc d idx = Some info ->
    exists c ds i, In (c, VDict ds) data /\ c <> "date" /\ In (d, VDict i) ds /\
    info = mkInfo (get_default "path" i (VStr "")) (lookup "version" i) (lookup "modified" i) c);
    [exact Hn|].
  intros idx' [d' v] Hv Hn'. destruct v as [ | | | | | | |i]; try exact Hn'.
  intros info. rewrite str_assoc_index_set. destruct (String.eqb_spec d' d) as [->|_]; [|apply Hn'].
  intros [= <-]. exists c, ds, i. auto.
Qed.

(** Every entry of the index that [load_index] builds comes from a dict
    [info] listed under a category other than ["date"]: it records that
    category, the [path] of [info] (default [""]) and its [version] and
    [modified] fields. *)
Theorem load_index_entry_origin (data : list (string * pyval)) (ld : loader) (d : string)
        (info : index_info) :
  ld_index ld = build_index data -> index_get (VStr d) ld = Some info ->
  exists c ds i, In (c, VDict ds) data /\ c <> "date" /\ In (d, VDict i) ds /\
    info = mkInfo (get_default "path" i (VStr "")) (lookup "version" i) (lookup "modified" i) c.
Proof. exact (index_entry_origin data ld d info). Qed.

(** [get_all_domains] after [load_index] lists exactly the domains that
    have a dict [info] under some category other than ["date"]. *)
Theorem get_all_domains_spec (data : list (string * pyval)) (ld : loader) (d : string) :
  ld_index ld = build_index data ->
  (In d (get_all_domains ld) <->
   exists c ds i, In (c, VDict ds) data /\ c <> "date" /\ In (d, VDict i) ds).
Proof.
  intros H. split.
  - intros Hin. unfold get_all_domains in Hin.
    destruct (in_keys_str_assoc d _ Hin) as [info Hs].
    assert (Hg : index_get (VStr d) ld = Some info) by (unfold index_get; exact Hs).
    destruct (index_entry_origin data ld d info H Hg) as [c [ds [i [H1 [H2 [H3 _]]]]]].
    exists c, ds, i. auto.
  - intros [c [ds [i [H1 [H2 H3]]]]]. unfold get_all_domains. rewrite H. unfold build_index.
    apply in_split in H1. destruct H1 as [l1 [l2 ->]].
    rewrite fold_left_app. simpl. apply build_index_mono.
    destruct (String.eqb_spec c "date") as [|_]; [contradiction|].
    apply in_split in H3. destruct H3 as [m1 [m2 ->]].
    rewrite fold_left_app. simpl.
    apply fold_left_inv with (P := fun idx => In d (map fst idx)).
    + apply in_keys_index_set. auto.
    + intros idx' [d' info] _ Hn'. destruct info; try exact Hn'.
      apply in_keys_index_set. auto.
Qed.

(** ** [has_manifest] and the index lookups of [get_manifest] *)

Lemma existsb_key_str_assoc (s : string) (l : list (string * index_info)) :
  existsb (fun '(d, _) => String.eqb d s) l = match str_assoc s l with Some _ => true | None => false end.
Proof.
  induction l as [|[d x] t IH]; simpl; [reflexivity|]. destruct (String.eqb d s); [reflexivity|exact IH].
Qed.

Lemma case_insensitive_find_str (rt : runtime) (s : string) (l : list (string * index_info)) :
  (existsb (fun '(d, _) => String.eqb (py_lower rt d) (py_lower rt s)) l = true ->
   exists i, case_insensitive_find rt (VStr s) l = Some (Some i)) /\
  (existsb (fun '(d, _) => String.eqb (py_lower rt d) (py_lower rt s)) l = false ->
   case_insensitive_find rt (VStr s) l = Some None).
Proof.
  induction l as [|[d x] t IH]; simpl; [split; [discriminate | reflexivity]|].
  destruct (String.eqb (py_lower rt d) (py_lower rt s)); simpl; [split; [eauto | discriminate]|].
  exact IH.
Qed.

Lemma case_insensitive_find_data (rt : runtime) (x : list Byte.byte) (l : list (string * index_info)) :
  case_insensitive_find rt (VData x) l = Some None.
Proof. induction l as [|[d i] t IH]; simpl; [reflexivity | exact IH]. Qed.

(** [has_manifest] answers True exactly when the exact or the
    case-insensitive index lookup that [get_manifest] performs finds an
    entry; it never answers True through a platform-suffix variant alone. *)
Theorem has_manifest_iff_index_lookup (rt : runtime) (pt : pyval) (ld : loader) :
  has_manifest rt pt ld = Some true <->
  exists info, match index_get pt ld with
               | Some i => Some (Some i)
               | None => case_insensitive_find rt pt (ld_index ld)
               end = Some (Some info).
Proof.
  unfold has_manifest, index_get. destruct pt as [s| | | |x| | |].
  5: rewrite case_insensitive_find_data; split; [discriminate | intros [info H]; discriminate H].
  2-7: destruct (ld_index ld) as [|[d x] tl];
       (split; [simpl; intros H; discriminate H | intros [info H]; discriminate H]).
  rewrite existsb_key_str_assoc. destruct (str_assoc s (ld_index ld)) as [i|].
  - split; [intros _; eauto | reflexivity].
  - destruct (case_insensitive_find_str rt s (ld_index ld)) as [Ht Hf].
    destruct (existsb _ (ld_index ld)).
    + split; [intros _; apply Ht; reflexivity | reflexivity].
    + rewrite Hf by reflexivity. split; [discriminate | intros [info H]; discriminate H].
Qed.

(** ** [get_subkey_definitions] *)

Lemma get_then_lookup {A} (k : string) (f : pyval -> A) (d : A) kvs :
  get_then k f d kvs = match lookup k kvs with Some v => f v | None => d end.
Proof.
  induction kvs as [|[k' v] t IH]; simpl; [reflexivity|]. destruct (String.eqb k' k); auto.
Qed.

Lemma lookup_in (k : string) (kvs : list (string * pyval)) (v : pyval) :
  lookup k kvs = Some v -> In (k, v) kvs.
Proof.
  induction kvs as [|[k' w] t IH]; simpl; [discriminate|].
  destruct (String.eqb_spec k' k) as [->|_]; [intros [= ->]; auto | auto].
Qed.

Lemma dict_set_Forall (rt : runtime) {A} (Q : pyval * A -> Prop) (k : pyval) (x : A) l :
  Forall Q l -> (forall k', k' = k \/ py_eq rt k' k = true -> Q (k', x)) ->
  Forall Q (dict_set rt k x l).
Proof.
  induction l as [|[k' y] t IH]; simpl; intros Hl Hk.
  - constructor; [apply Hk; auto | constructor].
  - inversion Hl; subst. destruct (py_eq rt k' k) eqn:E.
    + constructor; [apply Hk; auto | assumption].
    + constructor; [assumption | apply IH; assumption].
Qed.

(** An entry of the flat definition map: a subkey dict whose [pfm_name]
    is truthy and equal to the key it is stored under. *)
Definition named_entry (rt : runtime) (kv : pyval * pyval) : Prop :=
  exists sk n, snd kv = VDict sk /\ lookup "pfm_name" sk = Some n /\ truthy n = true /\
               (fst kv = n \/ py_eq rt (fst kv) n = true).

Lemma get_then_stage (rt : runtime) (Inv : list (pyval * pyval) -> Prop)
      (k : string) (sk : kdict) (pfx : string) (r r' : list (pyval * pyval)) :
  dict_values_hold (fun v => forall result prefix result', Inv result ->
     extract_subkeys rt v result prefix = Some result' -> Inv result') sk ->
  Inv r ->
  get_then k (fun v => if truthy v then extract_subkeys rt v r pfx else Some r) (Some r) sk = Some r' ->
  Inv r'.
Proof.
  intros Hx Hr H. rewrite get_then_lookup in H.
  destruct (lookup k sk) as [v|] eqn:Hl; [|injection H as <-; exact Hr].
  destruct (truthy v); [|injection H as <-; exact Hr].
  apply lookup_in in Hl. unfold dict_values_hold in Hx. rewrite Forall_forall in Hx.
  exact (Hx _ Hl _ _ _ Hr H).
Qed.

Lemma extract_subkeys_named (rt : runtime) :
  forall v result prefix result',
  Forall (named_entry rt) result -> extract_subkeys rt v result prefix = Some result' ->
  Forall (named_entry rt) result'.
Proof.
  intros v. induction v as [v Hv|xs Hxs|kvs _] using pyval_ind2.
  - destruct v; try discriminate Hv; intros result prefix result' Hr H; simpl in H.
    all: try (injection H as <-; exact Hr).
    all: discriminate H.
  - induction xs as [|x t IHt]; intros result prefix result' Hr H; simpl in H.
    { injection H as <-; exact Hr. }
    inversion Hxs as [|? ? Hx Ht]; subst.
    destruct x as [| | | | | | |sk]; try exact (IHt Ht result prefix result' Hr H).
    destruct (lookup "pfm_name" sk) as [name|] eqn:Hn; [|exact (IHt Ht result prefix result' Hr H)].
    destruct (truthy name) eqn:Htr; [|exact (IHt Ht result prefix result' Hr H)].
    destruct (hashable name); [|discriminate H].
    assert (Hr1 : Forall (named_entry rt) (dict_set rt name (VDict sk) result)).
    { apply dict_set_Forall; [exact Hr|]. intros k' Hk'. exists sk, name.
      simpl. repeat split; auto. }
    match type of H with
    | match ?a with Some _ => _ | None => None end = _ => destruct a as [r2|] eqn:E2; [|discriminate H]
    end.
    match type of H with
    | match ?b with Some _ => _ | None => None end = _ => destruct b as [r3|] eqn:E3; [|discriminate H]
    end.
    apply (IHt Ht r3 prefix result'); [|exact H].
    eapply get_then_stage; [exact Hx| |exact E3].
    eapply get_then_stage; [exact Hx| exact Hr1 |exact E2].
  - intros result prefix result' Hr H. simpl in H. injection H as <-. exact Hr.
Qed.

(** Every entry of the map [get_subkey_definitions] returns is a subkey
    dict whose [pfm_name] is truthy and equal to the key it is stored under. *)
Theorem get_subkey_definitions_named (rt : runtime) (manifest : kdict)
        (defs : list (pyval * pyval)) :
  get_subkey_definitions rt manifest = Some defs -> Forall (named_entry rt) defs.
Proof.
  unfold get_subkey_definitions. intros H.
  exact (extract_subkeys_named rt _ [] "" defs (Forall_nil _) H).
Qed.

(** A subkey with no nested [pfm_subkeys] and no [pfm_item_subkeys]. *)
Definition no_nested_subkeys (sk : kdict) : bool :=
  negb (truthy (get_default "pfm_subkeys" sk (VArr []))) &&
  negb (truthy (get_default "pfm_item_subkeys" sk (VArr []))).

Definition defs_as_values (d : defs) : list (pyval * pyval) :=
  map (fun '(k, kd) => (k, VDict kd)) d.

Lemma defs_as_values_dict_set (rt : runtime) (name : pyval) (kd : kdict) (acc : defs) :
  defs_as_values (dict_set rt name kd acc) = dict_set rt name (VDict kd) (defs_as_values acc).
Proof.
  induction acc as [|[k' y] t IH]; simpl; [reflexivity|].
  destruct (py_eq rt k' name); simpl; [reflexivity|]. rewrite IH. reflexivity.
Qed.

Lemma get_then_falsy (k : string) (sk : kdict) (g : pyval -> option (list (pyval * pyval))) r :
  truthy (get_default k sk (VArr [])) = false ->
  get_then k (fun v => if truthy v then g v else Some r) (Some r) sk = Some r.
Proof.
  rewrite get_then_lookup. unfold get_default. destruct (lookup k sk) as [v|]; [|reflexivity].
  intros ->. reflexivity.
Qed.

Lemma immediate_defs_go_no_dict (rt : runtime) (l : list pyval) (acc : defs) :
  Forall (fun x => match x with VDict _ => False | _ => True end) l ->
  immediate_defs_go rt l acc = Some acc.
Proof.
  induction l as [|x t IH]; intros H; simpl; [reflexivity|].
  inversion H as [|? ? Hx Ht]; subst. destruct x; try contradiction; apply IH; exact Ht.
Qed.

Lemma extract_subkeys_flat_items (rt : runtime) (items : list pyval) :
  forall prefix acc,
  (forall sk, In (VDict sk) items -> no_nested_subkeys sk = true) ->
  extract_subkeys rt (VArr items) (defs_as_values acc) prefix =
  option_map defs_as_values (immediate_defs_go rt items acc).
Proof.
  induction items as [|x t IH]; intros prefix acc Hf; simpl; [reflexivity|].
  assert (Ht : forall sk, In (VDict sk) t -> no_nested_subkeys sk = true)
    by (intros sk Hin; apply Hf; right; exact Hin).
  destruct x as [| | | | | | |sk]; try exact (IH prefix acc Ht).
  destruct (lookup "pfm_name" sk) as [name|]; [|exact (IH prefix acc Ht)].
  destruct (truthy name); [|exact (IH prefix acc Ht)].
  destruct (hashable name); [|reflexivity].
  pose proof (Hf sk (or_introl eq_refl)) as Hn. unfold no_nested_subkeys in Hn.
  apply andb_prop in Hn. destruct Hn as [Hn1 Hn2]. apply negb_true_iff in Hn1, Hn2.
  rewrite <- defs_as_values_dict_set.
  rewrite (get_then_falsy "pfm_subkeys" sk _ _ Hn1).
  rewrite (get_then_falsy "pfm_item_subkeys" sk _ _ Hn2).
  exact (IH prefix (dict_set rt name sk acc) Ht).
Qed.

(** For a schema whose top-level subkeys nest nothing further, the loader's
    flat [get_subkey_definitions] and the validator's
    [_get_immediate_subkey_defs] build the same map (the former stores the
    subkey dicts as values), and fail on the same input. *)
Theorem get_subkey_definitions_flat (rt : runtime) (manifest : kdict) :
  (forall items sk, get_default "pfm_subkeys" manifest (VArr []) = VArr items ->
                    In (VDict sk) items -> no_nested_subkeys sk = true) ->
  get_subkey_definitions rt manifest =
  option_map defs_as_values
             (get_immediate_subkey_defs rt (get_default "pfm_subkeys" manifest (VArr []))).
Proof.
  unfold get_subkey_definitions, get_immediate_subkey_defs.
  destruct (get_default "pfm_subkeys" manifest (VArr [])) as [s|z|f|b|bs|t|items|kvs];
    intros Hflat; try reflexivity.
  - simpl. rewrite immediate_defs_go_no_dict; [reflexivity|].
    apply Forall_forall. intros x Hx. apply in_map_iff in Hx. destruct Hx as [c [<- _]]. exact I.
  - simpl. rewrite immediate_defs_go_no_dict; [reflexivity|].
    apply Forall_forall. intros x Hx. apply in_map_iff in Hx. destruct Hx as [c [<- _]]. exact I.
  - change (@nil (pyval * pyval)) with (defs_as_values []).
    apply extract_subkeys_flat_items. intros sk; apply Hflat; reflexivity.
  - simpl. rewrite immediate_defs_go_no_dict; [reflexivity|].
    apply Forall_forall. intros x Hx. apply in_map_iff in Hx. destruct Hx as [[k v] [<- _]]. exact I.
Qed.

(** ** [JSONFormatter._serialize_value] *)

Section PyvalIndFull.
Variable P : pyval -> Prop.
Hypothesis H_scalar : forall v, is_container v = false -> P v.
Hypothesis H_arr_all : forall xs, Forall P xs -> P (VArr xs).
Hypothesis H_dict_all : forall kvs, Forall (fun kv => P (snd kv)) kvs -> P (VDict kvs).

Fixpoint pyval_ind_full (v : pyval) : P v :=
  match v with
  | VArr xs =>
      H_arr_all xs ((fix items (l : list pyval) : Forall P l :=
                       match l with
                       | [] => Forall_nil _
                       | x :: t => Forall_cons x (pyval_ind_full x) (items t)
                       end) xs)
  | VDict kvs =>
      H_dict_all kvs ((fix values (m : list (string * pyval)) : Forall (fun kv => P (snd kv)) m :=
                         match m with
                         | [] => Forall_nil _
                         | (k, x) :: t => @Forall_cons _ (fun kv => P (snd kv)) (k, x) t
                                            (pyval_ind_full x) (values t)
                         end) kvs)
  | VStr s => H_scalar (VStr s) eq_refl
  | VInt z => H_scalar (VInt z) eq_refl
  | VReal f => H_scalar (VReal f) eq_refl
  | VBool b => H_scalar (VBool b) eq_refl
  | VData bs => H_scalar (VData bs) eq_refl
  | VDate t => H_scalar (VDate t) eq_refl
  end.
End PyvalIndFull.

(** A bytes value anywhere inside [v]. *)
Fixpoint contains_bytes (v : pyval) : bool :=
  match v with
  | VData _ => true
  | VArr xs => existsb contains_bytes xs
  | VDict kvs => existsb (fun '(_, x) => contains_bytes x) kvs
  | _ => false
  end.

(** [_serialize_value] leaves no bytes value anywhere inside its result,
    and serialising an already serialised value changes nothing. *)
Theorem serialize_value_no_bytes_idempotent (v : pyval) :
  contains_bytes (serialize_value v) = false /\
  serialize_value (serialize_value v) = serialize_value v.
Proof.
  induction v as [v Hv|xs Hxs|kvs Hkvs] using pyval_ind_full.
  - destruct v; try discriminate Hv; simpl; auto.
  - simpl. split.
    + induction Hxs as [|x t [Hx _] _ IH]; simpl; [reflexivity|]. rewrite Hx. exact IH.
    + f_equal. rewrite map_map. induction Hxs as [|x t [_ Hx] _ IH]; simpl; [reflexivity|].
      rewrite Hx. f_equal. exact IH.
  - simpl. split.
    + induction Hkvs as [|[k x] t [Hx _] _ IH]; simpl in *; [reflexivity|]. rewrite Hx. exact IH.
    + f_equal. rewrite map_map. induction Hkvs as [|[k x] t [_ Hx] _ IH]; simpl in *;
        [reflexivity|].
      rewrite Hx. f_equal. exact IH.
Qed.

(** ** One loader shared across files *)

Lemma get_manifest_snd (rt : runtime) (ld0 ld : loader) pt :
  cache_inv rt ld0 ld ->
  option_map snd (get_manifest rt pt ld) = option_map snd (get_manifest rt pt ld0).
Proof.
  intros [Hi [Hf [extra [Hm Hx]]]]. unfold get_manifest.
  destruct (negb (hashable pt)); [reflexivity|].
  rewrite Hm, cache_lookup_app.
  destruct (cache_lookup rt pt (ld_manifests ld0)) as [c|] eqn:Hc0; [reflexivity|].
  destruct (cache_lookup rt pt extra) as [c|] eqn:Hc.
  - destruct (cache_lookup_in rt pt extra c Hc) as [k' [Hin Heq]].
    rewrite Forall_forall in Hx. destruct (Hx _ Hin) as [Hk [ld'' Hr]].
    simpl in Hk, Hr. apply (py_eq_key_l rt k' pt Hk) in Heq. subst pt.
    rewrite Hr. reflexivity.
  - exact (resolve_uncached_snd rt pt ld ld0 Hi Hf).
Qed.

Lemma get_manifest_version_index pt (l1 l2 : loader) :
  ld_index l1 = ld_index l2 -> get_manifest_version pt l1 = get_manifest_version pt l2.
Proof. intros H. unfold get_manifest_version, index_get. rewrite H. reflexivity. Qed.

Lemma process_payload_sim (rt : runtime) (ld0 l1 l2 : loader) idx e r u i st1' :
  cache_inv rt ld0 l1 -> cache_inv rt ld0 l2 ->
  process_payload rt idx e (mkState l1 r u i) = Some st1' ->
  exists st2', process_payload rt idx e (mkState l2 r u i) = Some st2' /\
    vs_result st2' = vs_result st1' /\ vs_uuids st2' = vs_uuids st1' /\
    vs_identifiers st2' = vs_identifiers st1' /\
    cache_inv rt ld0 (vs_loader st1') /\ cache_inv rt ld0 (vs_loader st2').
Proof.
  intros H1 H2 H. unfold process_payload in *. cbn [vs_result vs_uuids vs_identifiers vs_loader] in *.
  destruct e as [| | | | | | |p];
    try (injection H as <-; eexists; split; [reflexivity|]; simpl; auto; fail).
  destruct (lookup "PayloadUUID" p) as [uu|];
    [destruct (truthy uu); [destruct (hashable uu); [|discriminate H]|]|].
  all: cbv beta iota zeta in H |- *.
  all: destruct (validate_payload_structure rt p (payload_prefix idx)) as [ps|]; [|discriminate H].
  all: pose proof (get_manifest_snd rt ld0 l1 (get_default "PayloadType" p (VStr "")) H1) as S1.
  all: pose proof (get_manifest_snd rt ld0 l2 (get_default "PayloadType" p (VStr "")) H2) as S2.
  all: destruct (get_manifest rt (get_default "PayloadType" p (VStr "")) l1) as [[la ma]|] eqn:E1;
         [|discriminate H].
  all: destruct (get_manifest rt (get_default "PayloadType" p (VStr "")) l2) as [[lb mb]|] eqn:E2;
         simpl in S1, S2; rewrite <- S2 in S1; [|discriminate S1].
  all: injection S1 as <-.
  all: pose proof (get_manifest_inv rt ld0 l1 la _ ma H1 E1) as Ha.
  all: pose proof (get_manifest_inv rt ld0 l2 lb _ ma H2 E2) as Hb.
  all: rewrite (get_manifest_version_index _ lb la) by (destruct Ha, Hb; congruence).
  all: destruct (truthy_opt ma);
       [destruct (match ma with Some (VDict md) => _ | _ => None end) as [mi|]; [|discriminate H]|].
  all: injection H as <-; eexists; split; [reflexivity|]; simpl; auto.
Qed.

Lemma process_payloads_sim (rt : runtime) (ld0 : loader) :
  forall elems idx l1 l2 r u i st1',
  cache_inv rt ld0 l1 -> cache_inv rt ld0 l2 ->
  process_payloads rt idx elems (mkState l1 r u i) = Some st1' ->
  exists st2', process_payloads rt idx elems (mkState l2 r u i) = Some st2' /\
    vs_result st2' = vs_result st1' /\ vs_uuids st2' = vs_uuids st1' /\
    vs_identifiers st2' = vs_identifiers st1' /\
    cache_inv rt ld0 (vs_loader st1') /\ cache_inv rt ld0 (vs_loader st2').
Proof.
  induction elems as [|e t IH]; intros idx l1 l2 r u i st1' H1 H2 H; simpl in H |- *.
  - injection H as <-. eexists; split; [reflexivity|]. simpl; auto.
  - destruct (process_payload rt idx e (mkState l1 r u i)) as [[la ra ua ia]|] eqn:E;
      [|discriminate H].
    destruct (process_payload_sim rt ld0 l1 l2 idx e r u i _ H1 H2 E)
      as [[lb rb ub ib] [E2 [Hr [Hu [Hi [Ha Hb]]]]]].
    simpl in Hr, Hu, Hi, Ha, Hb. subst rb ub ib. rewrite E2.
    exact (IH (S idx) la lb ra ua ia st1' Ha Hb H).
Qed.

Lemma validate_sim (rt : runtime) (ld0 l1 l2 l1' : loader) path input r :
  cache_inv rt ld0 l1 -> cache_inv rt ld0 l2 ->
  validate rt l1 path input = Some (l1', r) ->
  exists l2', validate rt l2 path input = Some (l2', r) /\
              cache_inv rt ld0 l1' /\ cache_inv rt ld0 l2'.
Proof.
  intros H1 H2 H. unfold validate in *.
  destruct input as [v|e|]; [| injection H as <- <-; eauto | injection H as <- <-; eauto].
  destruct v as [| | | | | | |profile]; try discriminate H.
  destruct (validate_profile_structure rt profile) as [s|]; [|discriminate H].
  destruct (initial_uuids profile) as [u|]; [|discriminate H].
  destruct (get_default "PayloadContent" profile (VArr [])) as [| | | | | |elems|];
    try (injection H as <- <-; eauto; fail).
  destruct (process_payloads rt 0 elems _) as [st1|] eqn:E1; [|discriminate H].
  destruct (process_payloads_sim rt ld0 elems 0 l1 l2 _ _ _ st1 H1 H2 E1)
    as [st2 [E2 [Hr [Hu [Hi [Ha Hb]]]]]].
  rewrite E2, Hi. destruct (tally rt (vs_identifiers st1) []) as [counts|]; [|discriminate H].
  injection H as <- <-. rewrite Hr. eauto.
Qed.

Lemma validate_all_sim (rt : runtime) (ld0 : loader) :
  forall inputs ld ld' rs,
  cache_inv rt ld0 ld -> validate_all rt ld inputs = Some (ld', rs) ->
  Forall2 (fun inp r => exists l, validate rt ld0 (fst inp) (snd inp) = Some (l, r)) inputs rs.
Proof.
  induction inputs as [|[path input] t IH]; intros ld ld' rs Hld H; simpl in H.
  - injection H as _ <-. constructor.
  - destruct (validate rt ld path input) as [[l1 r]|] eqn:E; [|discriminate H]. cbn [fst snd] in H.
    destruct (validate_all rt l1 t) as [[l2 rs']|] eqn:E'; [|discriminate H].
    injection H as _ <-. simpl.
    destruct (validate_sim rt ld0 ld ld0 l1 path input r Hld (cache_inv_refl rt ld0) E)
      as [l0 [E0 [Ha _]]].
    constructor; [exists l0; exact E0 | exact (IH l1 l2 rs' Ha E')].
Qed.

(** Sharing one loader, and so its manifest cache, across the files of
    [validate_files] changes no result: each result is the one
    [validate_file] gives for that file with a loader of its own. *)
Theorem validate_files_as_validate_file (rt : runtime) index files inputs (b : batch_result) :
  validate_files rt index files inputs = Some b ->
  Forall2 (fun inp r => validate_file rt index files (fst inp) (snd inp) = Some r)
          inputs (b_results b).
Proof.
  unfold validate_files. intros H.
  destruct (validate_all rt (mkLoader index [] files) inputs) as [[ld' rs]|] eqn:E;
    [|discriminate H].
  injection H as <-. simpl.
  pose proof (validate_all_sim rt (mkLoader index [] files) inputs _ ld' rs
                (cache_inv_refl rt _) E) as HF.
  eapply Forall2_impl; [|exact HF]. intros [path input] r [l Hv]. simpl in Hv |- *.
  unfold validate_file. rewrite Hv. reflexivity.
Qed.

(** [validate] never changes the loader's index or manifest files, and its
    manifest cache only grows, by entries keyed by a [str] or [bytes]
    PayloadType and equal to what a fresh lookup from the starting loader
    returns for that PayloadType. *)
Theorem validate_cache_only_memoizes (rt : runtime) (ld ld' : loader) path input r :
  validate rt ld path input = Some (ld', r) -> cache_inv rt ld ld'.
Proof.
  intros H.
  destruct (validate_sim rt ld ld ld ld' path input r (cache_inv_refl rt ld) (cache_inv_refl rt ld) H)
    as [l2 [_ [Ha _]]].
  exact Ha.
Qed.

Lemma resolve_uncached_none (rt : runtime) pt (ld ld' : loader) :
  resolve_uncached rt pt ld = Some (ld', None) -> ld' = ld.
Proof.
  unfold resolve_uncached. intros H.
  repeat match type of H with
         | context [match ?e with _ => _ end] => destruct e
         end; try discriminate H; injection H as <-; reflexivity.
Qed.

(** Asking [get_manifest] again for the same PayloadType returns the same
    answer and leaves the loader as the first call left it: a manifest
    found once is served from the cache. *)
Theorem get_manifest_repeat (rt : runtime) pt (ld ld' : loader) m :
  get_manifest rt pt ld = Some (ld', m) -> get_manifest rt pt ld' = Some (ld', m).
Proof.
  unfold get_manifest. destruct (negb (hashable pt)) eqn:Hh; [discriminate|].
  destruct (cache_lookup rt pt (ld_manifests ld)) as [c|] eqn:Hc.
  { intros [= <- <-]. rewrite Hc. reflexivity. }
  intros H. destruct m as [mf|].
  - pose proof (resolve_uncached_loader rt pt ld ld' (Some mf) H) as [Hi [Hf [Hm|[mf' [[= <-] Hm]]]]].
    + exfalso. unfold resolve_uncached in H.
      repeat match type of H with
             | context [match ?e with _ => _ end] => destruct e eqn:?
             end; try discriminate H; injection H as <- <-.
      simpl in Hm. rewrite (dict_set_absent rt pt _ _ Hc) in Hm.
      apply (f_equal (@List.length _)) in Hm. rewrite length_app in Hm. simpl in Hm. lia.
    + pose proof (resolve_uncached_found_key rt pt ld ld' mf H) as Hk.
      rewrite Hm, (dict_set_absent rt _ _ _ Hc), cache_lookup_app, Hc. simpl.
      rewrite (py_eq_key_refl rt pt Hk). reflexivity.
  - pose proof (resolve_uncached_none rt pt ld ld' H) as E. subst ld'. rewrite Hc. exact H.
Qed.

(** ** What [validate] reports *)

(** Every code the validator can emit. *)
Definition issue_codes : list string :=
  ["E000"; "E001"; "E002"; "E003"; "E004"; "E005"; "E006"; "E007"; "E008"; "E009";
   "W001"; "W002"; "W003"; "I002"; "I003"].

Lemma block_codes (rt : runtime) ld j e seen b :
  element_block rt ld j e seen b -> codes_in issue_codes b.
Proof.
  intros Hb. destruct e; cbv beta iota zeta delta [element_block] in Hb;
    try (subst b; codes_lit).
  destruct Hb as [ps [sch [-> [Hps [Hsch _]]]]].
  apply codes_in_app; [|apply codes_in_app].
  - destruct (dup_issues_shape rt kvs seen (payload_prefix j)) as [-> | [u ->]]; codes_lit.
  - eapply codes_in_weaken; [|eapply validate_payload_structure_codes; exact Hps]. incl_tac.
  - destruct Hsch as [-> | [md Hmd]]; [codes_lit|].
    eapply codes_in_weaken; [|eapply validate_payload_against_manifest_codes; exact Hmd].
    incl_tac.
Qed.

(** Whatever the input, every issue [validate] reports carries one of the
    fifteen codes E000-E009, W001-W003, I002 and I003; in particular it
    never reports an I001. *)
Theorem validate_codes_catalogue (rt : runtime) (ld ld' : loader) path input r :
  validate rt ld path input = Some (ld', r) -> codes_in issue_codes (r_issues r).
Proof.
  intros H. destruct input as [v|e|].
  2, 3: simpl in H; injection H as _ <-; simpl; codes_lit.
  destruct v as [| | | | | | |profile]; try discriminate H.
  destruct (validate_decompose rt ld ld' path profile r H)
    as [structure [Hs [[pc [_ [_ ->]]] | [elems [seen0 [blocks [infos [_ [_ [-> [Hl [Hk Hi]]]]]]]]]]]].
  - apply codes_in_app; [|codes_lit].
    eapply codes_in_weaken; [|eapply validate_profile_structure_codes; exact Hs]. incl_tac.
  - apply codes_in_app; [|apply codes_in_app].
    + eapply codes_in_weaken; [|eapply validate_profile_structure_codes; exact Hs]. incl_tac.
    + unfold codes_in. apply Forall_concat_blocks. intros k b Hb.
      destruct (nth_error elems k) as [e|] eqn:He.
      * exact (block_codes rt ld k e _ b (Hk k e b He Hb)).
      * exfalso. apply nth_error_None in He. assert (nth_error blocks k <> None) by congruence.
        apply nth_error_Some in H0. lia.
    + eapply Forall_impl; [|exact Hi]. intros i [_ ->]. in_tac.
Qed.

(** The dict entries of a [PayloadContent] list, in order. *)
Definition dict_payloads (elems : list pyval) : list kdict :=
  flat_map (fun e => match e with VDict p => [p] | _ => [] end) elems.

Lemma process_payload_fields (rt : runtime) idx e st st' :
  process_payload rt idx e st = Some st' ->
  r_file_path (vs_result st') = r_file_path (vs_result st) /\
  r_payload_types (vs_result st') =
    (r_payload_types (vs_result st) ++
     map (fun p => get_default "PayloadType" p (VStr "")) (dict_payloads [e]))%list /\
  vs_identifiers st' =
    (vs_identifiers st ++
     map (fun p => get_default "PayloadIdentifier" p (VStr "")) (dict_payloads [e]))%list.
Proof.
  destruct st as [l r u i]. unfold process_payload. cbn [vs_result vs_uuids vs_identifiers vs_loader].
  intros H. destruct e as [| | | | | | |p];
    try (injection H as <-; simpl; rewrite !app_nil_r; auto; fail).
  destruct (lookup "PayloadUUID" p) as [uu|];
    [destruct (truthy uu); [destruct (hashable uu); [|discriminate H]|]|].
  all: cbv beta iota zeta in H.
  all: destruct (validate_payload_structure rt p (payload_prefix idx)) as [ps|]; [|discriminate H].
  all: destruct (get_manifest rt (get_default "PayloadType" p (VStr "")) l) as [[la ma]|];
         [|discriminate H].
  all: destruct (truthy_opt ma);
       [destruct (match ma with Some (VDict md) => _ | _ => None end) as [mi|]; [|discriminate H]|].
  all: injection H as <-; simpl.
  all: try (destruct (get_manifest_version _ la) as [v|]; [destruct (truthy v)|]).
  all: simpl; auto.
Qed.

Lemma process_payloads_fields (rt : runtime) :
  forall elems idx st st',
  process_payloads rt idx elems st = Some st' ->
  r_file_path (vs_result st') = r_file_path (vs_result st) /\
  r_payload_types (vs_result st') =
    (r_payload_types (vs_result st) ++
     map (fun p => get_default "PayloadType" p (VStr "")) (dict_payloads elems))%list /\
  vs_identifiers st' =
    (vs_identifiers st ++
     map (fun p => get_default "PayloadIdentifier" p (VStr "")) (dict_payloads elems))%list.
Proof.
  induction elems as [|e t IH]; intros idx st st' H; simpl in H.
  - injection H as <-. simpl. rewrite !app_nil_r. auto.
  - destruct (process_payload rt idx e st) as [st1|] eqn:E; [|discriminate H].
    destruct (process_payload_fields rt idx e st st1 E) as [P1 [T1 I1]].
    destruct (IH (S idx) st1 st' H) as [P2 [T2 I2]].
    replace (dict_payloads (e :: t)) with (dict_payloads [e] ++ dict_payloads t)%list
      by (unfold dict_payloads; simpl; rewrite app_nil_r; reflexivity).
    rewrite P2, T2, I2, T1, I1, P1, !map_app, !app_assoc. auto.
Qed.

Lemma validate_path (rt : runtime) (ld ld' : loader) path input r :
  validate rt ld path input = Some (ld', r) -> r_file_path r = path.
Proof.
  unfold validate. intros H.
  destruct input as [v|e|]; [| injection H as _ <-; reflexivity | injection H as _ <-; reflexivity].
  destruct v as [| | | | | | |profile]; try discriminate H.
  destruct (validate_profile_structure rt profile) as [s|]; [|discriminate H].
  destruct (initial_uuids profile) as [u|]; [|discriminate H].
  destruct (get_default "PayloadContent" profile (VArr [])) as [| | | | | |elems|];
    try (injection H as _ <-; reflexivity).
  destruct (process_payloads rt 0 elems _) as [st|] eqn:E; [|discriminate H].
  destruct (tally rt (vs_identifiers st) []); [|discriminate H].
  injection H as _ <-. simpl. apply process_payloads_fields in E. destruct E as [-> _]. reflexivity.
Qed.

(** [validate_files] returns one result per file, in the order given, each
    carrying the path of its file. *)
Theorem validate_files_paths (rt : runtime) index files inputs (b : batch_result) :
  validate_files rt index files inputs = Some b ->
  map r_file_path (b_results b) = map fst inputs.
Proof.
  unfold validate_files. intros H.
  destruct (validate_all rt (mkLoader index [] files) inputs) as [[ld' rs]|] eqn:E;
    [|discriminate H].
  injection H as <-. simpl. revert E. generalize (mkLoader index [] files) as ld. revert ld' rs.
  induction inputs as [|[path input] t IH]; intros ld' rs ld E; simpl in E.
  - injection E as _ <-. reflexivity.
  - destruct (validate rt ld path input) as [[l1 r]|] eqn:E1; [|discriminate E]. cbn [fst snd] in E.
    destruct (validate_all rt l1 t) as [[l2 rs']|] eqn:E2; [|discriminate E].
    injection E as _ <-. simpl. rewrite (validate_path rt ld l1 path input r E1).
    f_equal. exact (IH l2 rs' l1 E2).
Qed.

(** [validate] records in [payload_types] the PayloadType (default [""]) of
    each dict in [PayloadContent], in order, skipping entries that are not
    dicts; when [PayloadContent] is not a list it records none. *)
Theorem validate_payload_types (rt : runtime) (ld ld' : loader) path profile r :
  validate rt ld path (Parsed (VDict profile)) = Some (ld', r) ->
  r_payload_types r =
    match get_default "PayloadContent" profile (VArr []) with
    | VArr elems => map (fun p => get_default "PayloadType" p (VStr "")) (dict_payloads elems)
    | _ => []
    end.
Proof.
  unfold validate. intros H.
  destruct (validate_profile_structure rt profile) as [s|]; [|discriminate H].
  destruct (initial_uuids profile) as [u|]; [|discriminate H].
  destruct (get_default "PayloadContent" profile (VArr [])) as [| | | | | |elems|];
    try (injection H as _ <-; reflexivity).
  destruct (process_payloads rt 0 elems _) as [st|] eqn:E; [|discriminate H].
  destruct (tally rt (vs_identifiers st) []); [|discriminate H].
  injection H as _ <-. simpl. apply process_payloads_fields in E. destruct E as [_ [-> _]].
  reflexivity.
Qed.

Lemma count_add_absent (rt : runtime) x counts :
  (forall k, In k (map fst counts) -> py_eq rt k x = false) ->
  count_add rt x counts = (counts ++ [(x, 1%nat)])%list.
Proof.
  induction counts as [|[k c] t IH]; simpl; intros H; [reflexivity|].
  rewrite (H k (or_introl eq_refl)). rewrite IH; auto.
Qed.

Lemma tally_distinct (rt : runtime) : forall idents counts counts',
  Forall (fun kc => snd kc = 1%nat) counts ->
  (forall k y, In k (map fst counts) -> In y idents -> truthy y = true -> py_eq rt k y = false) ->
  ForallOrdPairs (fun a b => truthy a = true -> truthy b = true -> py_eq rt a b = false) idents ->
  tally rt idents counts = Some counts' -> Forall (fun kc => snd kc = 1%nat) counts'.
Proof.
  induction idents as [|x t IH]; intros counts counts' H1 Hk Hp H; simpl in H.
  - injection H as <-. exact H1.
  - inversion Hp as [|? ? Hx Ht]; subst.
    destruct (truthy x) eqn:Tx; [destruct (hashable x); [|discriminate H]|].
    + rewrite count_add_absent in H by (intros k Hin; apply Hk; simpl; auto).
      apply (IH (counts ++ [(x, 1%nat)])%list counts'); [| |exact Ht|exact H].
      { apply Forall_app. split; [exact H1 | constructor; [reflexivity | constructor]]. }
      intros k y Hin Hy Ty. rewrite map_app in Hin. apply in_app_iff in Hin.
      destruct Hin as [Hin|[<-|[]]].
      * apply Hk; simpl; auto.
      * rewrite Forall_forall in Hx. exact (Hx y Hy eq_refl Ty).
    + apply (IH counts); [exact H1| |exact Ht|exact H].
      intros k y Hin Hy Ty. apply Hk; simpl; auto.
Qed.

Lemma identifier_issues_ones (counts : list (pyval * nat)) :
  Forall (fun kc => snd kc = 1%nat) counts -> identifier_issues counts = [].
Proof.
  induction 1 as [|[k c] t Hc _ IH]; [reflexivity|]. simpl in Hc. subst c. exact IH.
Qed.

(** Codes of the issues one element of [PayloadContent] contributes. *)
Definition element_codes : list string :=
  ["E001"; "E002"; "E003"; "E004"; "E005"; "E006"; "E007"; "E008"; "E009";
   "W001"; "W002"; "W003"].

Lemma block_element_codes (rt : runtime) ld j e seen b :
  element_block rt ld j e seen b -> codes_in element_codes b.
Proof.
  intros Hb. destruct e; cbv beta iota zeta delta [element_block] in Hb;
    try (subst b; codes_lit).
  destruct Hb as [ps [sch [-> [Hps [Hsch _]]]]].
  apply codes_in_app; [|apply codes_in_app].
  - destruct (dup_issues_shape rt kvs seen (payload_prefix j)) as [-> | [u ->]]; codes_lit.
  - eapply codes_in_weaken; [|eapply validate_payload_structure_codes; exact Hps]. incl_tac.
  - destruct Hsch as [-> | [md Hmd]]; [codes_lit|].
    eapply codes_in_weaken; [|eapply validate_payload_against_manifest_codes; exact Hmd].
    incl_tac.
Qed.

(** When no two of the document's and the dict payloads' PayloadIdentifier
    values compare equal (empty ones aside), [validate] reports no I003. *)
Theorem validate_no_I003_when_distinct (rt : runtime) (ld ld' : loader) path profile elems r :
  validate rt ld path (Parsed (VDict profile)) = Some (ld', r) ->
  get_default "PayloadContent" profile (VArr []) = VArr elems ->
  ForallOrdPairs (fun a b => truthy a = true -> truthy b = true -> py_eq rt a b = false)
    (get_default "PayloadIdentifier" profile (VStr "") ::
     map (fun p => get_default "PayloadIdentifier" p (VStr "")) (dict_payloads elems)) ->
  Forall (fun i => i_code i <> "I003") (r_issues r).
Proof.
  unfold validate. intros H Hpc Hd. rewrite Hpc in H.
  destruct (validate_profile_structure rt profile) as [s|] eqn:Hs; [|discriminate H].
  destruct (initial_uuids profile) as [u|]; [|discriminate H].
  destruct (process_payloads rt 0 elems _) as [st|] eqn:E; [|discriminate H].
  destruct (tally rt (vs_identifiers st) []) as [counts|] eqn:Ht; [|discriminate H].
  injection H as _ <-. simpl.
  pose proof (process_payloads_fields rt elems 0 _ st E) as [_ [_ Hi]]. simpl in Hi.
  rewrite Hi in Ht.
  rewrite (identifier_issues_ones counts), app_nil_r.
  2: { apply (tally_distinct rt _ [] counts (Forall_nil _) (fun k y (Hk : In k []) _ _ => match Hk with end) Hd Ht). }
  match type of E with
  | process_payloads _ _ _ ?s0 = _ =>
      destruct (process_payloads_trace rt ld elems 0 s0 st (cache_inv_refl rt ld) E)
        as [blocks [Hr [Hl Hk]]]
  end.
  rewrite Hr. simpl. apply Forall_app. split.
  - eapply Forall_impl; [|eapply validate_profile_structure_codes; exact Hs].
    intros i Hin Heq. cbv beta in Hin. rewrite Heq in Hin. simpl in Hin. intuition discriminate.
  - apply Forall_concat_blocks. intros k b Hb.
    destruct (nth_error elems k) as [e|] eqn:He.
    + eapply Forall_impl; [|exact (block_element_codes rt ld k e _ b (Hk k e b He Hb))].
      intros i Hin Heq. cbv beta in Hin. rewrite Heq in Hin. simpl in Hin. intuition discriminate.
    + exfalso. apply nth_error_None in He. assert (nth_error blocks k <> None) by congruence.
      apply nth_error_Some in H. lia.
Qed.

(** A [manifest_versions] entry read from the index of [ld0]. *)
Definition version_from_index (ld0 : loader) (kv : pyval * pyval) : Prop :=
  exists s info, fst kv = VStr s /\ str_assoc s (ld_index ld0) = Some info /\
                 ii_version info = Some (snd kv) /\ truthy (snd kv) = true.

Lemma process_payload_versions (rt : runtime) (ld0 : loader) idx e st st' :
  cache_inv rt ld0 (vs_loader st) ->
  Forall (version_from_index ld0) (r_manifest_versions (vs_result st)) ->
  process_payload rt idx e st = Some st' ->
  Forall (version_from_index ld0) (r_manifest_versions (vs_result st')).
Proof.
  destruct st as [l r u i]. unfold process_payload. cbn [vs_result vs_uuids vs_identifiers vs_loader].
  intros Hinv HF H. destruct e as [| | | | | | |p];
    try (injection H as <-; exact HF).
  destruct (lookup "PayloadUUID" p) as [uu|];
    [destruct (truthy uu); [destruct (hashable uu); [|discriminate H]|]|].
  all: cbv beta iota zeta in H.
  all: destruct (validate_payload_structure rt p (payload_prefix idx)) as [ps|]; [|discriminate H].
  all: destruct (get_manifest rt (get_default "PayloadType" p (VStr "")) l) as [[la ma]|] eqn:Eg;
         [|discriminate H].
  all: pose proof (get_manifest_inv rt ld0 l la _ ma Hinv Eg) as [Hia _].
  all: destruct (truthy_opt ma);
       [destruct (match ma with Some (VDict md) => _ | _ => None end) as [mi|]; [|discriminate H]|].
  all: injection H as <-; simpl; try exact HF.
  all: destruct (get_manifest_version (get_default "PayloadType" p (VStr "")) la) as [v|] eqn:Ev;
         [destruct (truthy v) eqn:Tv|]; simpl; try exact HF.
  all: apply dict_set_Forall; [exact HF|].
  all: unfold get_manifest_version, index_get in Ev; rewrite Hia in Ev.
  all: destruct (get_default "PayloadType" p (VStr "")) as [s| | | | | | |]; try discriminate Ev.
  all: destruct (str_assoc s (ld_index ld0)) as [info|] eqn:Ei; [|discriminate Ev].
  all: intros k' Hk'; exists s, info; simpl; repeat split; auto.
  all: destruct Hk' as [->|Hk']; [reflexivity | exact (py_eq_str_r rt s k' Hk')].
Qed.

Lemma process_payloads_versions (rt : runtime) (ld0 : loader) :
  forall elems idx st st',
  cache_inv rt ld0 (vs_loader st) ->
  Forall (version_from_index ld0) (r_manifest_versions (vs_result st)) ->
  process_payloads rt idx elems st = Some st' ->
  Forall (version_from_index ld0) (r_manifest_versions (vs_result st')).
Proof.
  induction elems as [|e t IH]; intros idx st st' Hinv HF H; simpl in H.
  - injection H as <-. exact HF.
  - destruct (process_payload rt idx e st) as [st1|] eqn:E; [|discriminate H].
    pose proof (process_payload_step rt ld0 idx e st st1 Hinv E) as [Hinv1 _].
    exact (IH (S idx) st1 st' Hinv1 (process_payload_versions rt ld0 idx e st st1 Hinv HF E) H).
Qed.

(** Every entry [validate] records in [manifest_versions] maps a string
    PayloadType to the truthy [version] of that exact domain's entry in the
    loader's index. *)
Theorem validate_manifest_versions_from_index (rt : runtime) (ld ld' : loader) path input r :
  validate rt ld path input = Some (ld', r) ->
  Forall (version_from_index ld) (r_manifest_versions r).
Proof.
  unfold validate. intros H.
  destruct input as [v|e|]; [| injection H as _ <-; constructor | injection H as _ <-; constructor].
  destruct v as [| | | | | | |profile]; try discriminate H.
  destruct (validate_profile_structure rt profile) as [s|]; [|discriminate H].
  destruct (initial_uuids profile) as [u|]; [|discriminate H].
  destruct (get_default "PayloadContent" profile (VArr [])) as [| | | | | |elems|];
    try (injection H as _ <-; constructor).
  destruct (process_payloads rt 0 elems _) as [st|] eqn:E; [|discriminate H].
  destruct (tally rt (vs_identifiers st) []); [|discriminate H].
  injection H as _ <-. simpl.
  refine (process_payloads_versions rt ld elems 0 _ st _ _ E); [exact (cache_inv_refl rt ld) | constructor].
Qed.

(** ** Concrete runs for the properties above

    An index with a [date] entry and two categories that both list
    [com.example.settings]; the community entry, read last, wins. *)

Definition demo_manifest : kdict :=
  [("pfm_domain", VStr "com.example.settings");
   ("pfm_subkeys",
     VArr [VDict [("pfm_name", VStr "Enabled"); ("pfm_type", VStr "boolean")];
           VDict [("pfm_name", VStr "Servers"); ("pfm_type", VStr "array");
                  ("pfm_subkeys",
                    VArr [VDict [("pfm_name", VStr "Host"); ("pfm_type", VStr "string")]])];
           VStr "not a dict";
           VDict [("pfm_type", VStr "string")]])].

Definition demo_flat_manifest : kdict :=
  [("pfm_domain", VStr "com.example.flat");
   ("pfm_subkeys",
     VArr [VDict [("pfm_name", VStr "Enabled"); ("pfm_type", VStr "boolean")];
           VDict [("pfm_name", VStr "Name"); ("pfm_type", VStr "string");
                  ("pfm_subkeys", VArr [])]])].

Definition demo_index_data : list (string * pyval) :=
  [("date", VStr "2024-01-01");
   ("apple", VDict [("com.example.settings",
                      VDict [("path", VStr "apple/settings.plist"); ("version", VInt 2%Z)])]);
   ("community", VDict [("com.example.settings",
                          VDict [("path", VStr "community/settings.plist"); ("version", VInt 3%Z)]);
                        ("com.example.other", VDict [("path", VStr "community/other.plist")])])].

Definition demo_files (path : string) : file_outcome :=
  if String.eqb path "community/settings.plist" then FileParsed (VDict demo_manifest)
  else FileMissing.

Definition demo_index_loader : loader := mkLoader (build_index demo_index_data) [] demo_files.

Definition demo_inputs : list (string * parsed) :=
  [("a.mobileconfig", Parsed (VDict demo_profile)); ("b.mobileconfig", FileNotFound);
   ("c.mobileconfig", Parsed (VDict demo_profile))].

Definition demo_index_run : option (loader * validation_result) :=
  validate CPython.rt demo_index_loader "a.mobileconfig" (Parsed (VDict demo_profile)).

Definition demo_index_after : loader :=
  match demo_index_run with Some (ld, _) => ld | None => demo_index_loader end.

Definition demo_index_result : validation_result :=
  match demo_index_run with Some (_, r) => r | None => mkResult "" [] [] [] end.

Definition demo_batch : batch_result :=
  match validate_files CPython.rt (build_index demo_index_data) demo_files demo_inputs with
  | Some b => b
  | None => mkBatch []
  end.

Definition demo_subkey_defs : list (pyval * pyval) :=
  match get_subkey_definitions CPython.rt demo_manifest with Some d => d | None => [] end.

Lemma load_index_entry_origin_witness :
  index_get (VStr "com.example.settings") demo_index_loader =
    Some (mkInfo (VStr "community/settings.plist") (Some (VInt 3%Z)) None "community") /\
  exists c ds i, In (c, VDict ds) demo_index_data /\ c <> "date" /\
    In ("com.example.settings", VDict i) ds /\
    mkInfo (VStr "community/settings.plist") (Some (VInt 3%Z)) None "community" =
    mkInfo (get_default "path" i (VStr "")) (lookup "version" i) (lookup "modified" i) c.
Proof.
  split; [vm_compute; reflexivity|].
  apply (load_index_entry_origin demo_index_data demo_index_loader "com.example.settings").
  - reflexivity.
  - vm_compute. reflexivity.
Defined.

Lemma get_all_domains_spec_witness :
  ld_index demo_index_loader = build_index demo_index_data /\
  (In "com.example.other" (get_all_domains demo_index_loader) <->
   exists c ds i, In (c, VDict ds) demo_index_data /\ c <> "date" /\
                  In ("com.example.other", VDict i) ds).
Proof.
  split; [reflexivity|].
  apply (get_all_domains_spec demo_index_data demo_index_loader "com.example.other").
  reflexivity.
Defined.

Lemma get_subkey_definitions_named_witness :
  get_subkey_definitions CPython.rt demo_manifest = Some demo_subkey_defs /\
  Forall (named_entry CPython.rt) demo_subkey_defs.
Proof.
  split; [vm_compute; reflexivity|].
  apply (get_subkey_definitions_named CPython.rt demo_manifest demo_subkey_defs).
  vm_compute. reflexivity.
Defined.

Lemma get_subkey_definitions_flat_witness :
  get_subkey_definitions CPython.rt demo_flat_manifest =
  option_map defs_as_values
    (get_immediate_subkey_defs CPython.rt (get_default "pfm_subkeys" demo_flat_manifest (VArr []))).
Proof.
  apply (get_subkey_definitions_flat CPython.rt demo_flat_manifest).
  intros items sk H Hin. simpl in H. injection H as <-.
  simpl in Hin. destruct Hin as [E|[E|[]]]; injection E as <-; reflexivity.
Defined.

Lemma validate_files_as_validate_file_witness :
  validate_files CPython.rt (build_index demo_index_data) demo_files demo_inputs = Some demo_batch /\
  Forall2 (fun inp r => validate_file CPython.rt (build_index demo_index_data) demo_files
                                      (fst inp) (snd inp) = Some r)
          demo_inputs (b_results demo_batch).
Proof.
  split; [vm_compute; reflexivity|].
  apply (validate_files_as_validate_file CPython.rt (build_index demo_index_data) demo_files
           demo_inputs demo_batch).
  vm_compute. reflexivity.
Defined.

Lemma validate_cache_only_memoizes_witness :
  demo_index_run = Some (demo_index_after, demo_index_result) /\
  cache_inv CPython.rt demo_index_loader demo_index_after.
Proof.
  split; [vm_compute; reflexivity|].
  apply (validate_cache_only_memoizes CPython.rt demo_index_loader demo_index_after
           "a.mobileconfig" (Parsed (VDict demo_profile)) demo_index_result).
  vm_compute. reflexivity.
Defined.

Lemma get_manifest_repeat_witness :
  get_manifest CPython.rt (VStr "com.example.settings") demo_index_loader =
    Some (mkLoader (build_index demo_index_data)
                   [(VStr "com.example.settings", VDict demo_manifest)] demo_files,
          Some (VDict demo_manifest)) /\
  get_manifest CPython.rt (VStr "com.example.settings")
    (mkLoader (build_index demo_index_data)
              [(VStr "com.example.settings", VDict demo_manifest)] demo_files) =
    Some (mkLoader (build_index demo_index_data)
                   [(VStr "com.example.settings", VDict demo_manifest)] demo_files,
          Some (VDict demo_manifest)).
Proof.
  split; [vm_compute; reflexivity|].
  apply (get_manifest_repeat CPython.rt (VStr "com.example.settings") demo_index_loader).
  vm_compute. reflexivity.
Defined.

Lemma validate_codes_catalogue_witness :
  demo_index_run = Some (demo_index_after, demo_index_result) /\
  codes_in issue_codes (r_issues demo_index_result).
Proof.
  split; [vm_compute; reflexivity|].
  apply (validate_codes_catalogue CPython.rt demo_index_loader demo_index_after
           "a.mobileconfig" (Parsed (VDict demo_profile)) demo_index_result).
  vm_compute. reflexivity.
Defined.

Lemma validate_files_paths_witness :
  validate_files CPython.rt (build_index demo_index_data) demo_files demo_inputs = Some demo_batch /\
  map r_file_path (b_results demo_batch) = map fst demo_inputs.
Proof.
  split; [vm_compute; reflexivity|].
  apply (validate_files_paths CPython.rt (build_index demo_index_data) demo_files
           demo_inputs demo_batch).
  vm_compute. reflexivity.
Defined.

Lemma validate_payload_types_witness :
  demo_index_run = Some (demo_index_after, demo_index_result) /\
  r_payload_types demo_index_result =
    map (fun p => get_default "PayloadType" p (VStr "")) (dict_payloads demo_elems).
Proof.
  split; [vm_compute; reflexivity|].
  apply (validate_payload_types CPython.rt demo_index_loader demo_index_after
           "a.mobileconfig" demo_profile demo_index_result).
  vm_compute. reflexivity.
Defined.

Lemma validate_no_I003_when_distinct_witness :
  demo_index_run = Some (demo_index_after, demo_index_result) /\
  Forall (fun i => i_code i <> "I003") (r_issues demo_index_result).
Proof.
  split; [vm_compute; reflexivity|].
  apply (validate_no_I003_when_distinct CPython.rt demo_index_loader demo_index_after
           "a.mobileconfig" demo_profile demo_elems demo_index_result).
  - vm_compute. reflexivity.
  - reflexivity.
  - vm_compute. repeat constructor. all: intros _ _; reflexivity.
Defined.

Lemma validate_manifest_versions_from_index_witness :
  demo_index_run = Some (demo_index_after, demo_index_result) /\
  Forall (version_from_index demo_index_loader) (r_manifest_versions demo_index_result).
Proof.
  split; [vm_compute; reflexivity|].
  apply (validate_manifest_versions_from_index CPython.rt demo_index_loader demo_index_after
           "a.mobileconfig" (Parsed (VDict demo_profile)) demo_index_result).
  vm_compute. reflexivity.
Defined.
